(** * far_extractor: a shallow embedding of the ".far" archive reader

    The development follows [far_extractor/far_extractor.py].  Python values
    are modelled as follows:

    - [int] is [Z] (unbounded, signed);
    - [bytes] / [bytearray] are [list byte];
    - [str] is a list of Unicode code points ([list N]);
    - an exception is a value of [exn], and a function that may raise
      returns a [result];
    - an open binary file ([io.BufferedReader]) is a [stream]: the bytes of
      the file together with the current position;
    - the operating system's file system is an interface ([FileSystem]),
      with one concrete POSIX-like instance ([posix_fs]). *)

From Stdlib Require Import ZArith NArith List Bool Lia.
From Stdlib.Strings Require Import String Ascii Byte.
From stdpp Require Import base decidable numbers list.

Import ListNotations.
Local Open Scope Z_scope.

(** ** Python values *)

(** A Python [str]: the sequence of its code points. *)
Definition pystr := list N.

(** An ASCII literal of the source, as a [str]. *)
Fixpoint py (s : string) : pystr :=
  match s with
  | EmptyString => []
  | String c r => N_of_ascii c :: py r
  end.

(** The exceptions the module can meet.  [OSError] (of which [IOError] is an
    alias in Python 3) carries the text that [str(error)] renders. *)
Inductive exn :=
| ValueError (msg : string)
| UnicodeDecodeError
| TypeError
| OSError (msg : pystr).

Inductive result (A : Type) :=
| Ok (a : A)
| Raise (e : exn).
Arguments Ok {A} a.
Arguments Raise {A} e.

(** What [convert_bytes] returns: [Union[str, int]]. *)
Inductive value :=
| VStr (s : pystr)
| VInt (n : Z).

(** ** A state and exception monad *)

Definition M (S A : Type) := S -> result A * S.

Definition ret {S A} (a : A) : M S A := fun s => (Ok a, s).
Definition raise {S A} (e : exn) : M S A := fun s => (Raise e, s).
Definition bind {S A B} (m : M S A) (k : A -> M S B) : M S B :=
  fun s =>
    match m s with
    | (Ok a, s') => k a s'
    | (Raise e, s') => (Raise e, s')
    end.
Definition lift_result {S A} (r : result A) : M S A := fun s => (r, s).

Notation "x <- m ;; k" := (bind m (fun x => k))
  (at level 100, m at next level, right associativity).
Notation "m ;;; k" := (bind m (fun _ => k))
  (at level 100, right associativity).

(** Dynamic typing: the places where the source uses the result of
    [convert_bytes] as an [int] or as a [str]. *)
Definition as_int {S} (v : value) : M S Z :=
  match v with
  | VInt n => ret n
  | VStr _ => raise TypeError
  end.
Definition as_str {S} (v : value) : M S pystr :=
  match v with
  | VStr s => ret s
  | VInt _ => raise TypeError
  end.

(** ** Byte buffers and streams *)

Definition zero_byte : byte := x00.

(** [bytearray(n)]: [n] zero bytes; a negative count is a [ValueError]. *)
Definition bytearray (n : Z) : result (list byte) :=
  if n <? 0 then Raise (ValueError "negative count")
  else Ok (replicate (Z.to_nat n) zero_byte).

(** An [io.BufferedReader] over a regular file. *)
Record stream := Stream { data : list byte; pos : nat }.

(** The bytes from the current position to the end of the file. *)
Definition remaining (s : stream) : list byte := drop (pos s) (data s).

(** [stream.readinto(buf)]: as many bytes as are available, at most
    [len(buf)], overwrite the front of [buf]; the rest of [buf] is left as
    it was.  The number of bytes read, which [readinto] returns, is dropped
    by every caller, so the model returns the buffer. *)
Definition readinto (buf : list byte) : M stream (list byte) :=
  fun s =>
    let got := take (List.length buf) (remaining s) in
    (Ok (got ++ drop (List.length got) buf),
     Stream (data s) (pos s + List.length got)).

(** [stream.seek(offset, io.SEEK_SET)]: any non-negative offset is accepted,
    also past the end of the file. *)
Definition seek (offset : Z) : M stream unit :=
  fun s =>
    if offset <? 0 then (Raise (OSError (py "[Errno 22] Invalid argument")), s)
    else (Ok tt, Stream (data s) (Z.to_nat offset)).

(** ** Decoding *)

Definition byte_val (b : byte) : Z := Z.of_N (Byte.to_N b).

(** [int.from_bytes(b, "little")]. *)
Fixpoint from_bytes_little (b : list byte) : Z :=
  match b with
  | [] => 0
  | x :: r => byte_val x + 256 * from_bytes_little r
  end.

Definition in_range (lo hi : N) (b : byte) : bool :=
  ((lo <=? Byte.to_N b) && (Byte.to_N b <=? hi))%N.

Definition cont_bits (b : byte) : N := (Byte.to_N b - 128)%N.

(** [bytes.decode("utf-8")] with the default strict error handler: shortest
    form only, no surrogates, nothing above U+10FFFF.  [None] stands for
    [UnicodeDecodeError]. *)
Fixpoint utf8_decode (bs : list byte) : option pystr :=
  match bs with
  | [] => Some []
  | b0 :: r0 =>
    let c0 := Byte.to_N b0 in
    if (c0 <? 128)%N then
      match utf8_decode r0 with Some s => Some (c0 :: s) | None => None end
    else if (c0 <? 194)%N then None
    else if (c0 <? 224)%N then
      match r0 with
      | b1 :: r1 =>
        if in_range 128 191 b1 then
          match utf8_decode r1 with
          | Some s => Some (((c0 - 192) * 64 + cont_bits b1)%N :: s)
          | None => None
          end
        else None
      | _ => None
      end
    else if (c0 <? 240)%N then
      match r0 with
      | b1 :: b2 :: r2 =>
        let lo := if (c0 =? 224)%N then 160%N else 128%N in
        let hi := if (c0 =? 237)%N then 159%N else 191%N in
        if in_range lo hi b1 && in_range 128 191 b2 then
          match utf8_decode r2 with
          | Some s =>
            Some ((((c0 - 224) * 64 + cont_bits b1) * 64 + cont_bits b2)%N :: s)
          | None => None
          end
        else None
      | _ => None
      end
    else if (c0 <? 245)%N then
      match r0 with
      | b1 :: b2 :: b3 :: r3 =>
        let lo := if (c0 =? 240)%N then 144%N else 128%N in
        let hi := if (c0 =? 244)%N then 143%N else 191%N in
        if in_range lo hi b1 && in_range 128 191 b2 && in_range 128 191 b3 then
          match utf8_decode r3 with
          | Some s =>
            Some (((((c0 - 240) * 64 + cont_bits b1) * 64 + cont_bits b2) * 64
                   + cont_bits b3)%N :: s)
          | None => None
          end
        else None
      | _ => None
      end
    else None
  end.

(** [str.replace(old, new)] for one-character [old] and [new]. *)
Definition str_replace (old new : N) (s : pystr) : pystr :=
  map (fun c => if (c =? old)%N then new else c) s.

Definition backslash : N := 92.
Definition slash : N := 47.

(** ** The data model *)

Record ManifestEntry := mkManifestEntry {
  length : Z;
  _length : Z;
  file_offset : Z;
  file_name_length : Z;
  file_name : pystr
}.

Record Manifest := mkManifest {
  number_of_files : Z;
  manifest_entries : list ManifestEntry
}.

(** ** The decoder *)

Definition convert_bytes (n_bytes : Z) (type : string) : M stream value :=
  byte_array <- lift_result (bytearray n_bytes) ;;
  byte_array <- readinto byte_array ;;
  if String.eqb type "str" then
    match utf8_decode byte_array with
    | Some s => ret (VStr s)
    | None => raise UnicodeDecodeError
    end
  else if String.eqb type "int" then
    ret (VInt (from_bytes_little byte_array))
  else raise (ValueError "Type not supported.").

Definition parse_manifest_entry : M stream ManifestEntry :=
  length <- (v <- convert_bytes 4 "int" ;; as_int v) ;;
  _length <- (v <- convert_bytes 4 "int" ;; as_int v) ;;
  file_offset <- (v <- convert_bytes 4 "int" ;; as_int v) ;;
  file_name_length <- (v <- convert_bytes 4 "int" ;; as_int v) ;;
  file_name <- (v <- convert_bytes file_name_length "str" ;; as_str v) ;;
  ret (mkManifestEntry length _length file_offset file_name_length
         (str_replace backslash slash file_name)).

Fixpoint parse_entries (n : nat) (manifest_files : list ManifestEntry)
  : M stream (list ManifestEntry) :=
  match n with
  | O => ret manifest_files
  | S k =>
    manifest_entry <- parse_manifest_entry ;;
    parse_entries k (manifest_files ++ [manifest_entry])
  end.

(** The body of the [with] block of [create_manifest], on the opened
    stream. *)
Definition create_manifest_stream : M stream Manifest :=
  signature <- convert_bytes 8 "str" ;;
  version <- convert_bytes 4 "int" ;;
  manifest_offset <- (v <- convert_bytes 4 "int" ;; as_int v) ;;
  seek manifest_offset ;;;
  number_of_files <- (v <- convert_bytes 4 "int" ;; as_int v) ;;
  manifest_files <- parse_entries (Z.to_nat number_of_files) [] ;;
  ret (mkManifest number_of_files manifest_files).

Fixpoint find_by_name (entries : list ManifestEntry) (name : pystr)
  : result ManifestEntry :=
  match entries with
  | [] => Raise (ValueError "File name not found in Manifest.")
  | entry :: rest =>
    if bool_decide (file_name entry = name) then Ok entry
    else find_by_name rest name
  end.

Definition get_manifest_entry_by_name (manifest : Manifest) (name : pystr)
  : result ManifestEntry :=
  find_by_name (manifest_entries manifest) name.

Definition get_bytes (offset length : Z) : M stream (list byte) :=
  byte_array <- lift_result (bytearray length) ;;
  seek offset ;;;
  readinto byte_array.

(** ** Paths ([posixpath]) *)

Definition starts_with_sep (p : pystr) : bool :=
  match p with
  | c :: _ => (c =? slash)%N
  | [] => false
  end.

Definition ends_with_sep (p : pystr) : bool :=
  match last p with
  | Some c => (c =? slash)%N
  | None => false
  end.

(** [os.path.join(a, b)]. *)
Definition path_join (a b : pystr) : pystr :=
  if starts_with_sep b then b
  else if bool_decide (a = []) || ends_with_sep a then a ++ b
  else a ++ [slash] ++ b.

(** [p.rfind("/") + 1]. *)
Fixpoint after_last_sep (p : pystr) : nat :=
  match p with
  | [] => O
  | c :: r =>
    match after_last_sep r with
    | O => if (c =? slash)%N then 1%nat else O
    | S i => S (S i)
    end
  end.

Fixpoint drop_leading_seps (p : pystr) : pystr :=
  match p with
  | c :: r => if (c =? slash)%N then drop_leading_seps r else p
  | [] => []
  end.

(** [p.rstrip("/")]. *)
Definition rstrip_sep (p : pystr) : pystr :=
  rev (drop_leading_seps (rev p)).

(** [os.path.dirname(p)]. *)
Definition dirname (p : pystr) : pystr :=
  let head := take (after_last_sep p) p in
  if bool_decide (head = []) || forallb (fun c => (c =? slash)%N) head
  then head
  else rstrip_sep head.

(** ** The operating system *)

(** What the module asks of the file system:
    - [open_rb path]: [open(path, "rb")], giving the bytes of the file;
    - [makedirs name]: [os.makedirs(name, exist_ok=True)];
    - [write_file path b]: [with open(path, "wb") as f: f.write(b)].
    Each may raise; a failed [makedirs] or [write_file] may still have
    changed the file system. *)
Class FileSystem (FS : Type) := {
  open_rb : pystr -> FS -> result (list byte);
  makedirs : pystr -> M FS unit;
  write_file : pystr -> list byte -> M FS unit
}.

(** The file system and what has been printed on standard output. *)
Record os_state (FS : Type) := OsState { fs : FS; stdout : list pystr }.
Arguments OsState {FS} fs stdout.
Arguments fs {FS} o.
Arguments stdout {FS} o.

(** Inside a [with open(...) as stream] block: the open stream too. *)
Definition world (FS : Type) : Type := stream * os_state FS.

Definition on_stream {FS A} (m : M stream A) : M (world FS) A :=
  fun w =>
    match m (fst w) with
    | (r, s') => (r, (s', snd w))
    end.

Definition on_fs {FS A} (m : M FS A) : M (world FS) A :=
  fun w =>
    match m (fs (snd w)) with
    | (r, fs') => (r, (fst w, OsState fs' (stdout (snd w))))
    end.

Definition print {FS} (line : pystr) : M (world FS) unit :=
  fun w => (Ok tt, (fst w, OsState (fs (snd w)) (stdout (snd w) ++ [line]))).

(** [try: body except IOError as error: handler]: only an [OSError] is
    caught; the handler receives [str(error)]. *)
Definition try_except_IOError {S} (body : M S unit) (handler : pystr -> M S unit)
  : M S unit :=
  fun s =>
    match body s with
    | (Raise (OSError msg), s') => handler msg s'
    | other => other
    end.

(** [for x in l: body(x)]. *)
Fixpoint for_each {S A} (l : list A) (body : A -> M S unit) : M S unit :=
  match l with
  | [] => ret tt
  | x :: r => body x ;;; for_each r body
  end.

(** [with open(path, "rb") as stream: body]; the stream is closed on every
    way out.  The stream reads the bytes that the file had when it was
    opened. *)
Definition with_open_rb {FS A} `{FileSystem FS} (path : pystr)
  (body : M (world FS) A) : M (os_state FS) A :=
  fun o =>
    match open_rb path (fs o) with
    | Raise e => (Raise e, o)
    | Ok d =>
      match body (Stream d 0, o) with
      | (r, w') => (r, snd w')
      end
    end.

(** ** The extractor *)

Section Extractor.
Context {FS : Type} `{FileSystem FS}.

Definition extract_manifest_entry (entry : ManifestEntry) (output_path : pystr)
  : M (world FS) unit :=
  byte_array <- on_stream (get_bytes (file_offset entry) (length entry)) ;;
  let file_path := path_join output_path (file_name entry) in
  on_fs (makedirs (dirname file_path)) ;;;
  try_except_IOError
    (on_fs (write_file file_path byte_array))
    (fun error =>
       print (py "Error writing to file: " ++ file_path) ;;;
       print (py "Error: " ++ error)).

Definition extract_manifest_files (manifest : Manifest)
  (output_path far_file_path : pystr) : M (os_state FS) unit :=
  with_open_rb far_file_path
    (for_each (manifest_entries manifest)
       (fun entry => extract_manifest_entry entry output_path)).

Definition create_manifest (far_file_path : pystr) : M (os_state FS) Manifest :=
  with_open_rb far_file_path (on_stream create_manifest_stream).

End Extractor.

(** ** A POSIX-like file system

    Files and directories are kept by their absolute, resolved path: the
    list of their components from the root.  Paths are resolved by their
    text ([.] and empty components dropped, [..] removing the component
    before it); there are no symbolic links and no permissions.  The root
    directory always exists. *)

(** [p.split("/")]. *)
Fixpoint split_sep (p : pystr) : list pystr :=
  match p with
  | [] => [[]]
  | c :: r =>
    if (c =? slash)%N then [] :: split_sep r
    else
      match split_sep r with
      | h :: t => (c :: h) :: t
      | [] => [[c]]
      end
  end.

Definition is_dot (c : pystr) : bool := bool_decide (c = py ".").
Definition is_dotdot (c : pystr) : bool := bool_decide (c = py "..").

Definition components (p : pystr) : list pystr :=
  filter (fun c => c <> [] /\ is_dot c = false) (split_sep p).

Definition resolve_step (stack : list pystr) (c : pystr) : list pystr :=
  if is_dotdot c then removelast stack else stack ++ [c].

Definition resolve (cwd : list pystr) (p : pystr) : list pystr :=
  fold_left resolve_step (components p) (if starts_with_sep p then [] else cwd).

(** Whether path [p] denotes a place inside the directory [root], both
    taken from the working directory [cwd]. *)
Definition under_root (cwd : list pystr) (root p : pystr) : bool :=
  bool_decide (resolve cwd root `prefix_of` resolve cwd p).

Inductive node :=
| File (content : list byte)
| Dir.

Record posix_fs := PosixFs {
  cwd : list pystr;
  tree : list (list pystr * node)
}.

Fixpoint assoc (k : list pystr) (t : list (list pystr * node)) : option node :=
  match t with
  | [] => None
  | (k', n) :: r => if bool_decide (k' = k) then Some n else assoc k r
  end.

Definition lookup_node (k : list pystr) (t : list (list pystr * node))
  : option node :=
  match k with
  | [] => Some Dir
  | _ => assoc k t
  end.

Definition has_nul (p : pystr) : bool := existsb (fun c => (c =? 0)%N) p.

(** [str(error)] of an [OSError] with a file name; the name is quoted as
    [repr] quotes a name of plain printable characters. *)
Definition os_error (text : string) (filename : pystr) : exn :=
  OSError (py text ++ py ": '" ++ filename ++ py "'").

(** Create the directories [done ++ [c1]], [done ++ [c1; c2]], ... *)
Fixpoint mkdir_chain (name : pystr) (done todo : list pystr)
  (t : list (list pystr * node)) : result unit * list (list pystr * node) :=
  match todo with
  | [] => (Ok tt, t)
  | c :: rest =>
    let k := done ++ [c] in
    match lookup_node k t with
    | Some (File _) =>
      (Raise (os_error (match rest with
                        | [] => "[Errno 17] File exists"
                        | _ => "[Errno 20] Not a directory"
                        end) name), t)
    | Some Dir => mkdir_chain name k rest t
    | None => mkdir_chain name k rest ((k, Dir) :: t)
    end
  end.

Definition posix_makedirs (name : pystr) : M posix_fs unit :=
  fun f =>
    if has_nul name then (Raise (ValueError "embedded null byte"), f)
    else if bool_decide (name = []) then
      (Raise (os_error "[Errno 2] No such file or directory" name), f)
    else
      match mkdir_chain name [] (resolve (cwd f) name) (tree f) with
      | (r, t') => (r, PosixFs (cwd f) t')
      end.

Definition posix_write_file (path : pystr) (b : list byte) : M posix_fs unit :=
  fun f =>
    if has_nul path then (Raise (ValueError "embedded null byte"), f)
    else if bool_decide (path = []) then
      (Raise (os_error "[Errno 2] No such file or directory" path), f)
    else
      let k := resolve (cwd f) path in
      match lookup_node k (tree f), lookup_node (removelast k) (tree f) with
      | Some Dir, _ => (Raise (os_error "[Errno 21] Is a directory" path), f)
      | _, Some (File _) => (Raise (os_error "[Errno 20] Not a directory" path), f)
      | _, None => (Raise (os_error "[Errno 2] No such file or directory" path), f)
      | _, Some Dir =>
        if ends_with_sep path then
          (Raise (os_error "[Errno 21] Is a directory" path), f)
        else (Ok tt, PosixFs (cwd f) ((k, File b) :: tree f))
      end.

Definition posix_open_rb (path : pystr) (f : posix_fs) : result (list byte) :=
  if has_nul path then Raise (ValueError "embedded null byte")
  else
    match lookup_node (resolve (cwd f) path) (tree f) with
    | Some (File c) =>
      if ends_with_sep path then Raise (os_error "[Errno 20] Not a directory" path)
      else Ok c
    | Some Dir => Raise (os_error "[Errno 21] Is a directory" path)
    | None => Raise (os_error "[Errno 2] No such file or directory" path)
    end.

#[export] Instance posix_FileSystem : FileSystem posix_fs := {
  open_rb := posix_open_rb;
  makedirs := posix_makedirs;
  write_file := posix_write_file
}.

(** ** Building archives for the examples *)

Definition byte_of_Z (n : Z) : byte :=
  match Byte.of_N (Z.to_N (n mod 256)) with
  | Some b => b
  | None => zero_byte
  end.

(** The four bytes of an unsigned 32-bit integer, least significant first. *)
Definition le32 (n : Z) : list byte :=
  [byte_of_Z n; byte_of_Z (n / 256); byte_of_Z (n / 65536);
   byte_of_Z (n / 16777216)].

Definition ascii_bytes (s : string) : list byte := list_byte_of_string s.

(** The archive of the specification's scenario: signature, version 1, the
    manifest table at offset 20, two entries. *)
Definition sample_archive : list byte :=
  ascii_bytes "SIMSFAR " ++ le32 1 ++ le32 20 ++ ascii_bytes "DATA" ++
  le32 2 ++
  le32 5 ++ le32 5 ++ le32 0 ++ le32 5 ++ ascii_bytes "a.txt" ++
  le32 3 ++ le32 3 ++ le32 5 ++ le32 9 ++ ascii_bytes "dir\b.txt".

Definition sample_manifest : Manifest :=
  mkManifest 2
    [mkManifestEntry 5 5 0 5 (py "a.txt");
     mkManifestEntry 3 3 5 9 (py "dir/b.txt")].

(** An archive cut short: the table declares two entries and ends there. *)
Definition truncated_archive : list byte :=
  ascii_bytes "SIMSFAR " ++ le32 1 ++ le32 16 ++ le32 2.

(** A file system with the working directory [/home], holding the archive
    [/home/x.far] with the given content. *)
Definition fs_with_archive (content : list byte) : posix_fs :=
  PosixFs [py "home"]
    [([py "home"], Dir); ([py "home"; py "x.far"], File content)].

(** The state of the operating system before a run: that file system, and
    nothing printed yet. *)
Definition os_with_archive (content : list byte) : os_state posix_fs :=
  OsState (fs_with_archive content) [].

(** A manifest whose second entry cannot be written: [d] is by then a
    directory. *)
Definition manifest_with_unwritable_entry : Manifest :=
  mkManifest 3
    [mkManifestEntry 4 4 0 3 (py "d/a");
     mkManifestEntry 4 4 4 1 (py "d");
     mkManifestEntry 4 4 8 1 (py "c")].

(** A manifest whose second entry needs a directory where the first entry
    has put a regular file. *)
Definition manifest_with_clashing_directory : Manifest :=
  mkManifest 3
    [mkManifestEntry 4 4 0 1 (py "a");
     mkManifestEntry 4 4 4 3 (py "a/b");
     mkManifestEntry 4 4 8 1 (py "c")].

(** A manifest whose first entry has a NUL character in its name ([a] then
    NUL), as a name cut short by the end of the archive has. *)
Definition manifest_with_nul_name : Manifest :=
  mkManifest 2
    [mkManifestEntry 4 4 0 2 [97%N; 0%N];
     mkManifestEntry 4 4 8 1 (py "c")].

(** An entry with an absolute name, and one that climbs out with [..]. *)
Definition absolute_entry : ManifestEntry :=
  mkManifestEntry 4 4 0 10 (py "/tmp/x.txt").
Definition climbing_entry : ManifestEntry :=
  mkManifestEntry 4 4 0 8 (py "../x.txt").

(** The first entry of the sample archive, and its extraction to [out]. *)
Definition first_entry : ManifestEntry := mkManifestEntry 5 5 0 5 (py "a.txt").

Definition first_entry_run : result unit * world posix_fs :=
  extract_manifest_entry first_entry (py "out")
    (Stream sample_archive 0, os_with_archive sample_archive).

(** ** Vocabulary of the specification *)

(** The content of the regular file at the resolved path [k], if there is
    one. *)
Definition file_at (f : posix_fs) (k : list pystr) : option (list byte) :=
  match lookup_node k (tree f) with
  | Some (File c) => Some c
  | _ => None
  end.

(** The two lines that [extract_manifest_entry] prints for a failed write. *)
Definition failure_report (file_path error : pystr) : list pystr :=
  [py "Error writing to file: " ++ file_path; py "Error: " ++ error].


(** The reference decoder of a little-endian unsigned 32-bit integer, by
    shifts and bitwise or. *)
Definition reference_le_u32 (b0 b1 b2 b3 : byte) : Z :=
  Z.lor (byte_val b0)
    (Z.lor (Z.shiftl (byte_val b1) 8)
       (Z.lor (Z.shiftl (byte_val b2) 16) (Z.shiftl (byte_val b3) 24))).

(** What a read of [n] bytes finds at the position of [s]: the bytes that
    are there, then zeros. *)
Definition available (n : nat) (s : stream) : list byte := take n (remaining s).

Definition read_padded (n : nat) (s : stream) : list byte :=
  available n s ++ replicate (n - List.length (available n s)) zero_byte.

Definition advance (n : nat) (s : stream) : stream :=
  Stream (data s) (pos s + List.length (available n s)).

(** The stream has no byte left to read. *)
Definition at_end (s : stream) : Prop := (List.length (data s) <= pos s)%nat.

(** [zero_extends s t]: the bytes that [t] has left to read are those that
    [s] has left, followed by zero bytes only. *)
Definition zero_extends (s t : stream) : Prop :=
  exists j, remaining t = remaining s ++ replicate j zero_byte.

(** The entry that is read where the archive has no bytes left. *)
Definition zero_entry : ManifestEntry := mkManifestEntry 0 0 0 0 [].

(** [entries_from s es s']: the entries [es] are what successive calls of
    [parse_manifest_entry] return, in this order, from [s] on, leaving the
    stream at [s']. *)
Inductive entries_from : stream -> list ManifestEntry -> stream -> Prop :=
| entries_from_nil s : entries_from s [] s
| entries_from_cons s e s1 es s2 :
    parse_manifest_entry s = (Ok e, s1) ->
    entries_from s1 es s2 ->
    entries_from s (e :: es) s2.

(** ** Laying out an archive

    The inverse of the decoder, for entries whose names are plain ASCII:
    what the format stores for an entry, for a table and for an archive. *)

(** One byte per character of an ASCII name. *)
Definition name_bytes (name : pystr) : list byte :=
  map (fun c => byte_of_Z (Z.of_N c)) name.

Definition encode_entry (e : ManifestEntry) : list byte :=
  le32 (length e) ++ le32 (_length e) ++ le32 (file_offset e)
  ++ le32 (file_name_length e) ++ name_bytes (file_name e).

Definition encode_table (es : list ManifestEntry) : list byte :=
  le32 (Z.of_nat (List.length es)) ++ concat (map encode_entry es).

(** Signature, version, offset of the table, payload, table. *)
Definition encode_archive (signature : list byte) (version : Z)
  (payload : list byte) (es : list ManifestEntry) : list byte :=
  signature ++ le32 version ++ le32 (16 + Z.of_nat (List.length payload))
  ++ payload ++ encode_table es.

Definition u32 (n : Z) : Prop := 0 <= n < 2 ^ 32.

(** An entry that the format can hold and the decoder gives back as it is:
    unsigned 32-bit fields, the name length that of the name, an ASCII name
    without backslash. *)
Definition storable (e : ManifestEntry) : Prop :=
  u32 (length e) /\ u32 (_length e) /\ u32 (file_offset e)
  /\ file_name_length e = Z.of_nat (List.length (file_name e))
  /\ u32 (file_name_length e)
  /\ Forall (fun c => (c < 128)%N /\ c <> backslash) (file_name e).

(** The sample manifest laid out as an archive, with four bytes of payload
    before the table. *)
Definition encoded_sample : list byte :=
  encode_archive (ascii_bytes "SIMSFAR ") 1 (ascii_bytes "DATA")
    (manifest_entries sample_manifest).

(** The sample archive cut inside the record of its second entry. *)
Definition cut_archive : list byte := take 50 sample_archive.

(** An archive that declares three entries and ends after the record of
    the first. *)
Definition one_entry_of_three : list byte :=
  ascii_bytes "SIMSFAR " ++ le32 1 ++ le32 16 ++ le32 3
  ++ encode_entry first_entry.

(** An archive whose only entry has the two-byte name [U+00E9], cut after
    the first byte of that character. *)
Definition cut_inside_character : list byte :=
  ascii_bytes "SIMSFAR " ++ le32 1 ++ le32 16 ++ le32 1
  ++ le32 0 ++ le32 0 ++ le32 0 ++ le32 2 ++ [xc3].

(** The reports of a list of failed writes, each given by the entry and the
    text of the error. *)
Definition reports (output_path : pystr) (failed : list (ManifestEntry * pystr))
  : list pystr :=
  concat (map (fun p => failure_report
                          (path_join output_path (file_name (fst p))) (snd p))
            failed).

(** * Properties *)

(** ** Reading primitives *)

Lemma byte_val_range (b : byte) : 0 <= byte_val b < 256.
Proof.
  unfold byte_val. pose proof (Byte.to_N_bounded b). lia.
Qed.

Lemma from_bytes_little_app (a b : list byte) :
  from_bytes_little (a ++ b)
  = from_bytes_little a + 256 ^ Z.of_nat (List.length a) * from_bytes_little b.
Proof.
  induction a as [|x a IH]; simpl from_bytes_little; simpl List.length.
  - change (256 ^ Z.of_nat 0) with 1. lia.
  - rewrite IH, Nat2Z.inj_succ, Z.pow_succ_r by lia. ring.
Qed.

Lemma from_bytes_little_zeros (n : nat) :
  from_bytes_little (replicate n zero_byte) = 0.
Proof.
  induction n as [|n IH]; simpl; [reflexivity|].
  rewrite IH. reflexivity.
Qed.

Lemma from_bytes_little_nonneg (b : list byte) : 0 <= from_bytes_little b.
Proof.
  induction b as [|x b IH]; simpl; [lia|].
  pose proof (byte_val_range x). lia.
Qed.

Lemma from_bytes_little_bound (b : list byte) :
  from_bytes_little b < 256 ^ Z.of_nat (List.length b).
Proof.
  induction b as [|x b IH]; simpl from_bytes_little; simpl List.length.
  - change (256 ^ Z.of_nat 0) with 1. lia.
  - rewrite Nat2Z.inj_succ, Z.pow_succ_r by lia.
    pose proof (byte_val_range x). lia.
Qed.

Lemma readinto_zeros (n : nat) (s : stream) :
  readinto (replicate n zero_byte) s = (Ok (read_padded n s), advance n s).
Proof.
  unfold readinto, read_padded, advance, available.
  rewrite length_replicate, drop_replicate. reflexivity.
Qed.

Lemma length_available (n : nat) (s : stream) :
  List.length (available n s) = (n `min` (List.length (data s) - pos s))%nat.
Proof.
  unfold available, remaining. rewrite length_take, length_drop. reflexivity.
Qed.

Lemma length_read_padded (n : nat) (s : stream) :
  List.length (read_padded n s) = n.
Proof.
  unfold read_padded. rewrite length_app, length_replicate.
  pose proof (length_available n s). lia.
Qed.

Lemma bytearray_nonneg (n : Z) :
  0 <= n -> bytearray n = Ok (replicate (Z.to_nat n) zero_byte).
Proof.
  intros Hn. unfold bytearray.
  destruct (Z.ltb_spec n 0); [lia | reflexivity].
Qed.

(** [convert_bytes] with a non-negative count, for each kind. *)
Lemma convert_bytes_int (n : Z) (s : stream) :
  0 <= n ->
  convert_bytes n "int" s
  = (Ok (VInt (from_bytes_little (read_padded (Z.to_nat n) s))),
     advance (Z.to_nat n) s).
Proof.
  intros Hn. unfold convert_bytes, bind, lift_result.
  rewrite bytearray_nonneg, readinto_zeros by assumption. reflexivity.
Qed.

Lemma convert_bytes_str (n : Z) (s : stream) :
  0 <= n ->
  convert_bytes n "str" s
  = (match utf8_decode (read_padded (Z.to_nat n) s) with
     | Some x => Ok (VStr x)
     | None => Raise UnicodeDecodeError
     end, advance (Z.to_nat n) s).
Proof.
  intros Hn. unfold convert_bytes, bind, lift_result.
  rewrite bytearray_nonneg, readinto_zeros by assumption. simpl.
  destruct (utf8_decode _); reflexivity.
Qed.

Lemma read_int (n : Z) (s : stream) :
  0 <= n ->
  (v <- convert_bytes n "int" ;; as_int v) s
  = (Ok (from_bytes_little (read_padded (Z.to_nat n) s)), advance (Z.to_nat n) s).
Proof.
  intros Hn. unfold bind at 1. rewrite convert_bytes_int by assumption.
  reflexivity.
Qed.

Lemma lor_shiftl_add (a b n : Z) :
  0 <= n -> 0 <= a < 2 ^ n -> Z.lor a (Z.shiftl b n) = a + 2 ^ n * b.
Proof.
  intros Hn Ha.
  replace (2 ^ n * b) with (Z.shiftl b n)
    by (rewrite Z.shiftl_mul_pow2 by assumption; ring).
  rewrite <- (Z.add_lor_land a (Z.shiftl b n)).
  assert (Hl : Z.land a (Z.shiftl b n) = 0).
  { apply Z.bits_inj'. intros i Hi.
    rewrite Z.land_spec, Z.bits_0.
    destruct (Z.lt_ge_cases i n) as [Hlt|Hge].
    - rewrite (Z.shiftl_spec_low b n i Hlt). apply andb_false_r.
    - destruct (Z.eq_dec a 0) as [->|Hnz].
      + rewrite Z.bits_0. reflexivity.
      + rewrite (Z.bits_above_log2 a i); [reflexivity | lia |].
        apply Z.log2_lt_pow2; [lia|].
        apply Z.lt_le_trans with (2 ^ n); [lia|].
        apply Z.pow_le_mono_r; lia. }
  rewrite Hl, Z.add_0_r. reflexivity.
Qed.

Lemma reference_le_u32_sum (b0 b1 b2 b3 : byte) :
  reference_le_u32 b0 b1 b2 b3 = from_bytes_little [b0; b1; b2; b3].
Proof.
  unfold reference_le_u32. simpl from_bytes_little.
  pose proof (byte_val_range b0). pose proof (byte_val_range b1).
  pose proof (byte_val_range b2). pose proof (byte_val_range b3).
  change (Z.shiftl (byte_val b3) 24) with (Z.shiftl (byte_val b3) (8 + 16)).
  rewrite <- (Z.shiftl_shiftl (byte_val b3) 8 16) by lia.
  rewrite <- Z.shiftl_lor.
  change (Z.shiftl ?x 16) with (Z.shiftl x (8 + 8)).
  rewrite <- (Z.shiftl_shiftl (Z.lor _ _) 8 8) by lia.
  rewrite <- Z.shiftl_lor.
  rewrite !lor_shiftl_add by (change (2 ^ 8) with 256; lia).
  change (2 ^ 8) with 256. ring.
Qed.

(** C9.  For every four bytes [b0 b1 b2 b3] that a stream holds at its
    position, [convert_bytes 4 "int"] returns the integer that the reference
    little-endian unsigned 32-bit decoder gives for them (an integer below
    [2^32]), and moves the stream four bytes on. *)
Theorem convert_bytes_int_is_reference_decode
  (b0 b1 b2 b3 : byte) (before after : list byte) :
  convert_bytes 4 "int"
    (Stream (before ++ [b0; b1; b2; b3] ++ after) (List.length before))
  = (Ok (VInt (reference_le_u32 b0 b1 b2 b3)),
     Stream (before ++ [b0; b1; b2; b3] ++ after) (List.length before + 4))
  /\ 0 <= reference_le_u32 b0 b1 b2 b3 < 2 ^ 32.
Proof.
  split.
  - rewrite convert_bytes_int by lia.
    unfold advance, read_padded, available, remaining; simpl data; simpl pos.
    rewrite drop_app_length. simpl. rewrite reference_le_u32_sum. reflexivity.
  - rewrite reference_le_u32_sum. split.
    + apply from_bytes_little_nonneg.
    + apply (from_bytes_little_bound [b0; b1; b2; b3]).
Qed.

(** [parse_manifest_entry], step by step: four integers of four bytes, then
    the name. *)
Lemma parse_manifest_entry_unfold (s : stream) :
  let s1 := advance 4 s in
  let s2 := advance 4 s1 in
  let s3 := advance 4 s2 in
  let s4 := advance 4 s3 in
  let name_length := from_bytes_little (read_padded 4 s3) in
  parse_manifest_entry s
  = (match utf8_decode (read_padded (Z.to_nat name_length) s4) with
     | Some name =>
       Ok (mkManifestEntry
             (from_bytes_little (read_padded 4 s))
             (from_bytes_little (read_padded 4 s1))
             (from_bytes_little (read_padded 4 s2))
             name_length
             (str_replace backslash slash name))
     | None => Raise UnicodeDecodeError
     end, advance (Z.to_nat name_length) s4).
Proof.
  intros s1 s2 s3 s4 name_length. unfold parse_manifest_entry.
  unfold bind at 1. rewrite (read_int 4 s) by lia.
  change (Z.to_nat 4) with 4%nat. cbv beta iota. fold s1.
  unfold bind at 1. rewrite (read_int 4 s1) by lia.
  change (Z.to_nat 4) with 4%nat. cbv beta iota. fold s2.
  unfold bind at 1. rewrite (read_int 4 s2) by lia.
  change (Z.to_nat 4) with 4%nat. cbv beta iota. fold s3.
  unfold bind at 1. rewrite (read_int 4 s3) by lia.
  change (Z.to_nat 4) with 4%nat. cbv beta iota. fold s4 name_length.
  unfold bind at 1. unfold bind at 1.
  rewrite convert_bytes_str by apply from_bytes_little_nonneg.
  destruct (utf8_decode _); reflexivity.
Qed.

(** ** Separator normalisation *)

Lemma str_replace_no_old (old new : N) (s : pystr) :
  old <> new -> Forall (fun c => c <> old) (str_replace old new s).
Proof.
  intros Hne. unfold str_replace. apply Forall_map, Forall_forall.
  intros c _. simpl. destruct (N.eqb_spec c old); congruence.
Qed.

Lemma str_replace_absent (old new : N) (s : pystr) :
  Forall (fun c => c <> old) s -> str_replace old new s = s.
Proof.
  unfold str_replace. induction 1 as [|c s Hc _ IH]; simpl; [reflexivity|].
  destruct (N.eqb_spec c old); [contradiction|]. f_equal. exact IH.
Qed.

(** C7.  Replacing every backslash of a name by a slash, as
    [parse_manifest_entry] does to the name it reads, is idempotent; the
    result has no backslash, whatever the name; and so has the name of
    every entry that [parse_manifest_entry] returns. *)
Theorem normalization_idempotent_and_backslash_free (name : pystr) (s : stream) :
  str_replace backslash slash (str_replace backslash slash name)
  = str_replace backslash slash name
  /\ Forall (fun c => c <> backslash) (str_replace backslash slash name)
  /\ match parse_manifest_entry s with
     | (Ok entry, _) => Forall (fun c => c <> backslash) (file_name entry)
     | (Raise _, _) => True
     end.
Proof.
  assert (Hne : backslash <> slash) by discriminate.
  split; [|split].
  - apply str_replace_absent, str_replace_no_old, Hne.
  - apply str_replace_no_old, Hne.
  - rewrite parse_manifest_entry_unfold.
    destruct (utf8_decode _); [|exact I].
    simpl. apply str_replace_no_old, Hne.
Qed.

(** ** Lookup by name *)

(** C6.  [get_manifest_entry_by_name] either returns the first entry, in the
    order of the manifest, whose name is exactly the one asked for (the
    entries before it have other names; entries after it may repeat the
    name), or no entry has that name and it raises the [ValueError] "File
    name not found in Manifest.". *)
Theorem get_manifest_entry_by_name_first_match (manifest : Manifest) (name : pystr) :
  (exists before entry after,
      manifest_entries manifest = before ++ entry :: after
      /\ Forall (fun e => file_name e <> name) before
      /\ file_name entry = name
      /\ get_manifest_entry_by_name manifest name = Ok entry)
  \/ (Forall (fun e => file_name e <> name) (manifest_entries manifest)
      /\ get_manifest_entry_by_name manifest name
         = Raise (ValueError "File name not found in Manifest.")).
Proof.
  unfold get_manifest_entry_by_name.
  induction (manifest_entries manifest) as [|e l IH]; simpl.
  - right. split; [constructor | reflexivity].
  - destruct (bool_decide_reflect (file_name e = name)) as [Heq|Hne].
    + left. exists [], e, l. split; [reflexivity|].
      split; [constructor|]. split; [assumption | reflexivity].
    + destruct IH as [(before & entry & after & Hl & Hb & Hn & Hf) | [Hall Hf]].
      * left. exists (e :: before), entry, after.
        split; [simpl; f_equal; exact Hl|].
        split; [constructor; assumption|]. split; assumption.
      * right. split; [constructor|]; assumption.
Qed.

(** ** Reading a range *)

Lemma get_bytes_unfold (offset length : Z) (s : stream) :
  0 <= offset -> 0 <= length ->
  get_bytes offset length s
  = (Ok (read_padded (Z.to_nat length) (Stream (data s) (Z.to_nat offset))),
     advance (Z.to_nat length) (Stream (data s) (Z.to_nat offset))).
Proof.
  intros Ho Hl. unfold get_bytes, bind, lift_result, seek.
  rewrite bytearray_nonneg by assumption.
  destruct (Z.ltb_spec offset 0); [lia|].
  apply readinto_zeros.
Qed.

(** C10.  For a non-negative offset and length, [get_bytes] never raises and
    returns a buffer of exactly [length] bytes, whatever the size of the
    stream: the bytes that the stream has from [offset] on, at most
    [length] of them, and zero at every position after them. *)
Theorem get_bytes_total_zero_padded (offset length : Z) (s : stream) :
  0 <= offset -> 0 <= length ->
  exists buf s',
    get_bytes offset length s = (Ok buf, s')
    /\ List.length buf = Z.to_nat length
    /\ buf = take (Z.to_nat length) (drop (Z.to_nat offset) (data s))
             ++ replicate
                  (Z.to_nat length - (List.length (data s) - Z.to_nat offset))
                  zero_byte
    /\ forall i : nat,
         (List.length (data s) - Z.to_nat offset <= i < Z.to_nat length)%nat ->
         buf !! i = Some zero_byte.
Proof.
  intros Ho Hl. eexists _, _. split; [apply get_bytes_unfold; assumption|].
  set (s0 := Stream (data s) (Z.to_nat offset)).
  pose proof (length_available (Z.to_nat length) s0) as Hav.
  simpl in Hav.
  split; [apply length_read_padded|]. split.
  - unfold read_padded. f_equal. f_equal. lia.
  - intros i Hi. unfold read_padded.
    rewrite lookup_app_r by lia. apply lookup_replicate_2. lia.
Qed.

Lemma get_bytes_total_zero_padded_witness :
  0 <= 2 /\ 0 <= 4 /\
  exists buf s',
    get_bytes 2 4 (Stream [x0a; x0b; x0c] 0) = (Ok buf, s')
    /\ List.length buf = Z.to_nat 4
    /\ buf = take (Z.to_nat 4) (drop (Z.to_nat 2) [x0a; x0b; x0c])
             ++ replicate (Z.to_nat 4 - (3 - Z.to_nat 2)) zero_byte
    /\ forall i : nat,
         (3 - Z.to_nat 2 <= i < Z.to_nat 4)%nat -> buf !! i = Some zero_byte.
Proof.
  split; [lia|]. split; [lia|].
  apply (get_bytes_total_zero_padded 2 4 (Stream [x0a; x0b; x0c] 0)); lia.
Defined.

Lemma read_padded_in_bounds (n : nat) (s : stream) :
  (pos s + n <= List.length (data s))%nat ->
  read_padded n s = take n (drop (pos s) (data s))
  /\ advance n s = Stream (data s) (pos s + n).
Proof.
  intros Hb. pose proof (length_available n s) as Hav.
  unfold read_padded, advance. rewrite Hav.
  replace (n `min` _)%nat with n by lia.
  rewrite Nat.sub_diag. simpl. rewrite app_nil_r. split; reflexivity.
Qed.

(** C8, as the code has it.  For a non-negative offset and length,
    [get_bytes] seeks to [offset] from the start of the stream and returns a
    buffer of [length] bytes without ever raising: when the stream holds
    [length] bytes from [offset] on, the buffer is exactly these bytes and
    the stream is left after them; when it holds fewer, the buffer is the
    bytes that are there followed by zeros. *)
Theorem get_bytes_exact_or_padded (offset length : Z) (s : stream) :
  0 <= offset -> 0 <= length ->
  let n := Z.to_nat length in
  let o := Z.to_nat offset in
  (offset + length <= Z.of_nat (List.length (data s)) ->
   get_bytes offset length s
   = (Ok (take n (drop o (data s))), Stream (data s) (o + n)))
  /\ (Z.of_nat (List.length (data s)) < offset + length ->
      get_bytes offset length s
      = (Ok (drop o (data s)
             ++ replicate (n - List.length (drop o (data s))) zero_byte),
         Stream (data s) (o + List.length (drop o (data s))))).
Proof.
  intros Ho Hl n o. subst n o.
  split; intros Hb; rewrite get_bytes_unfold by assumption.
  - destruct (read_padded_in_bounds (Z.to_nat length)
                (Stream (data s) (Z.to_nat offset))) as [-> ->];
      [simpl; lia | reflexivity].
  - unfold read_padded, advance, available, remaining. simpl data; simpl pos.
    rewrite take_ge by (rewrite length_drop; lia). reflexivity.
Qed.

Lemma get_bytes_exact_or_padded_witness :
  0 <= 1 /\ 0 <= 2 /\
  (1 + 2 <= Z.of_nat 3 ->
   get_bytes 1 2 (Stream [x0a; x0b; x0c] 0)
   = (Ok [x0b; x0c], Stream [x0a; x0b; x0c] 3))
  /\ (Z.of_nat 3 < 1 + 2 ->
      get_bytes 1 2 (Stream [x0a; x0b; x0c] 0)
      = (Ok ([x0b; x0c] ++ replicate (2 - 2) zero_byte),
         Stream [x0a; x0b; x0c] (1 + 2))).
Proof.
  split; [lia|]. split; [lia|].
  apply (get_bytes_exact_or_padded 1 2 (Stream [x0a; x0b; x0c] 0)); lia.
Defined.

(** C8, as the specification words it, fails: a stream of three bytes holds
    one byte past offset 2, four are asked for, and [get_bytes] returns four
    bytes, the last three of them zero, instead of raising. *)
Lemma get_bytes_short_stream_does_not_raise :
  (List.length (drop 2 [x0a; x0b; x0c]) < 4)%nat
  /\ get_bytes 2 4 (Stream [x0a; x0b; x0c] 0)
     = (Ok [x0c; x00; x00; x00], Stream [x0a; x0b; x0c] 3)
  /\ ~ (exists e s', get_bytes 2 4 (Stream [x0a; x0b; x0c] 0) = (Raise e, s')).
Proof.
  split; [simpl; lia|]. split; [reflexivity|].
  intros (e & s' & He). discriminate He.
Qed.

(** ** Reads at the end of the stream *)

Lemma remaining_advance (n : nat) (s : stream) :
  remaining (advance n s) = drop n (remaining s).
Proof.
  pose proof (length_available n s) as Hav.
  unfold advance, remaining in *. simpl. rewrite Hav, drop_drop.
  destruct (Nat.le_gt_cases n (List.length (data s) - pos s)).
  - f_equal. lia.
  - rewrite !drop_ge by lia. reflexivity.
Qed.

Lemma from_bytes_little_read_padded (n : nat) (s : stream) :
  from_bytes_little (read_padded n s) = from_bytes_little (take n (remaining s)).
Proof.
  unfold read_padded, available.
  rewrite from_bytes_little_app, from_bytes_little_zeros. lia.
Qed.

Lemma at_end_remaining (s : stream) : at_end s -> remaining s = [].
Proof.
  unfold at_end, remaining. intros H. apply drop_ge. exact H.
Qed.

Lemma at_end_read (n : nat) (s : stream) :
  at_end s -> read_padded n s = replicate n zero_byte /\ advance n s = s.
Proof.
  intros H. unfold read_padded, advance, available.
  rewrite (at_end_remaining s H), take_nil. simpl.
  rewrite Nat.sub_0_r, Nat.add_0_r. destruct s; split; reflexivity.
Qed.

Lemma parse_manifest_entry_at_end (s : stream) :
  at_end s -> parse_manifest_entry s = (Ok zero_entry, s).
Proof.
  intros H. rewrite parse_manifest_entry_unfold.
  destruct (at_end_read 4 s H) as [Hr Ha].
  rewrite !Ha, !Hr, from_bytes_little_zeros.
  change (Z.to_nat 0) with 0%nat.
  destruct (at_end_read 0 s H) as [Hr0 Ha0]. rewrite Hr0, Ha0.
  reflexivity.
Qed.

Lemma parse_entries_at_end (k : nat) (acc : list ManifestEntry) (s : stream) :
  at_end s -> parse_entries k acc s = (Ok (acc ++ replicate k zero_entry), s).
Proof.
  intros H. revert acc. induction k as [|k IH]; intros acc; simpl.
  - rewrite app_nil_r. reflexivity.
  - unfold bind. rewrite parse_manifest_entry_at_end by assumption.
    rewrite IH, <- app_assoc. reflexivity.
Qed.

Lemma parse_entries_spec (k : nat) (acc l : list ManifestEntry) (s s' : stream) :
  parse_entries k acc s = (Ok l, s')
  <-> exists es, l = acc ++ es /\ List.length es = k /\ entries_from s es s'.
Proof.
  revert acc s. induction k as [|k IH]; intros acc s; simpl.
  - unfold ret. split.
    + intros [= <- <-]. exists []. rewrite app_nil_r.
      repeat split. constructor.
    + intros (es & -> & Hlen & Hes). destruct es; [|discriminate].
      inversion Hes; subst. rewrite app_nil_r. reflexivity.
  - unfold bind. destruct (parse_manifest_entry s) as [[e|x] s1] eqn:Hp.
    + rewrite IH. split.
      * intros (es & -> & Hlen & Hes). exists (e :: es).
        rewrite <- app_assoc. repeat split; [simpl; lia|].
        econstructor; eassumption.
      * intros (es & -> & Hlen & Hes). destruct es as [|e' es]; [discriminate|].
        inversion Hes as [|? ? ? ? ? Hp' Hes']; subst.
        rewrite Hp in Hp'. injection Hp' as <- <-.
        exists es. rewrite <- app_assoc. repeat split; [|assumption].
        simpl in Hlen. lia.
    + split; [discriminate|].
      intros (es & -> & Hlen & Hes). destruct es as [|e' es]; [discriminate|].
      inversion Hes as [|? ? ? ? ? Hp' Hes']; subst.
      rewrite Hp in Hp'. discriminate.
Qed.

Lemma parse_entries_truncated (n : nat) (s0 s1 : stream) (es : list ManifestEntry) :
  entries_from s0 es s1 -> at_end s1 -> (List.length es <= n)%nat ->
  parse_entries n [] s0
  = (Ok (es ++ replicate (n - List.length es) zero_entry), s1).
Proof.
  intros Hes Hend Hlen.
  assert (Hgen : forall z acc,
             parse_entries (List.length es + z) acc s0
             = (Ok (acc ++ es ++ replicate z zero_entry), s1)).
  { clear Hlen. intros z.
    induction Hes as [s|s e s1 es s2 Hp Hes IH]; intros acc.
    - simpl. apply parse_entries_at_end, Hend.
    - simpl. unfold bind. rewrite Hp, (IH Hend), <- app_assoc. reflexivity. }
  specialize (Hgen (n - List.length es)%nat []).
  replace (_ + _)%nat with n in Hgen by lia. exact Hgen.
Qed.

(** ** Parsing the manifest *)

Lemma create_manifest_stream_unfold (d : list byte) :
  let manifest_offset := from_bytes_little (take 4 (drop 12 d)) in
  let table := Stream d (Z.to_nat manifest_offset) in
  let n := from_bytes_little (take 4 (remaining table)) in
  create_manifest_stream (Stream d 0)
  = match utf8_decode (read_padded 8 (Stream d 0)) with
    | None => (Raise UnicodeDecodeError, advance 8 (Stream d 0))
    | Some _ =>
      match parse_entries (Z.to_nat n) [] (advance 4 table) with
      | (Ok es, s') => (Ok (mkManifest n es), s')
      | (Raise e, s') => (Raise e, s')
      end
    end.
Proof.
  intros manifest_offset table n. unfold create_manifest_stream.
  unfold bind at 1. rewrite convert_bytes_str by lia.
  change (Z.to_nat 8) with 8%nat.
  destruct (utf8_decode (read_padded 8 (Stream d 0))); [|reflexivity].
  unfold bind at 1. rewrite convert_bytes_int by lia.
  unfold bind at 1. rewrite read_int by lia.
  change (Z.to_nat 4) with 4%nat. cbv beta iota.
  rewrite from_bytes_little_read_padded, !remaining_advance.
  unfold remaining at 1. simpl data; simpl pos.
  rewrite !drop_drop. change (0 + (8 + 4))%nat with 12%nat.
  fold manifest_offset.
  unfold bind at 1. unfold seek at 1.
  destruct (Z.ltb_spec manifest_offset 0) as [Hneg|_].
  { pose proof (from_bytes_little_nonneg (take 4 (drop 12 d))).
    unfold manifest_offset in Hneg. lia. }
  simpl data. fold table.
  unfold bind at 1. rewrite read_int by lia.
  change (Z.to_nat 4) with 4%nat. cbv beta iota.
  rewrite from_bytes_little_read_padded. fold n.
  unfold bind at 1. unfold ret.
  destruct (parse_entries (Z.to_nat n) [] (advance 4 table)) as [[es|e] s'];
    reflexivity.
Qed.

Lemma create_manifest_with_open {FS : Type} `{FileSystem FS}
  (far_file_path : pystr) (o : os_state FS) (d : list byte) :
  open_rb far_file_path (fs o) = Ok d ->
  create_manifest far_file_path o
  = (fst (create_manifest_stream (Stream d 0)), o).
Proof.
  intros Hopen. unfold create_manifest, with_open_rb, on_stream.
  rewrite Hopen. simpl.
  destruct (create_manifest_stream (Stream d 0)). reflexivity.
Qed.

(** C5.  Once the archive is open, [create_manifest] returns a manifest
    exactly when the eight bytes of the signature decode and every name of
    the table decodes; the manifest offset is the little-endian integer at
    bytes 12 to 15 (after the 8-byte signature and the 4-byte version), the
    count [number_of_files] is the 4-byte integer at that offset, the
    entries are what [parse_manifest_entry] returns call after call from
    just after the count, in this order, and there are [number_of_files] of
    them. *)
Theorem create_manifest_entries_in_order {FS : Type} `{FileSystem FS}
  (far_file_path : pystr) (o o' : os_state FS) (d : list byte) (m : Manifest) :
  open_rb far_file_path (fs o) = Ok d ->
  let manifest_offset := from_bytes_little (take 4 (drop 12 d)) in
  let table := Stream d (Z.to_nat manifest_offset) in
  create_manifest far_file_path o = (Ok m, o')
  <-> (o' = o
       /\ utf8_decode (read_padded 8 (Stream d 0)) <> None
       /\ number_of_files m = from_bytes_little (take 4 (remaining table))
       /\ List.length (manifest_entries m) = Z.to_nat (number_of_files m)
       /\ exists s', entries_from (advance 4 table) (manifest_entries m) s').
Proof.
  intros Hopen manifest_offset table.
  rewrite (create_manifest_with_open _ _ _ Hopen).
  rewrite create_manifest_stream_unfold. fold manifest_offset table.
  set (n := from_bytes_little (take 4 (remaining table))).
  destruct (utf8_decode (read_padded 8 (Stream d 0))) as [sig|].
  - destruct (parse_entries (Z.to_nat n) [] (advance 4 table))
      as [[es|e] s1] eqn:Hp; simpl.
    + apply parse_entries_spec in Hp as (es' & Hes & Hlen & Hfrom).
      simpl in Hes. subst es'. split.
      * intros [= <- <-]. simpl. repeat split; [discriminate | assumption |].
        exists s1. assumption.
      * intros (-> & _ & Hn & Hl & s' & Hfrom'). f_equal.
        destruct m as [n' es']. simpl in *. subst n'. f_equal.
        assert (Hp' : parse_entries (Z.to_nat n) [] (advance 4 table)
                      = (Ok es', s')).
        { apply parse_entries_spec. exists es'. repeat split; assumption. }
        assert (Hp : parse_entries (Z.to_nat n) [] (advance 4 table)
                     = (Ok es, s1)).
        { apply parse_entries_spec. exists es. repeat split; assumption. }
        congruence.
    + split; [discriminate|].
      intros (_ & _ & Hn & Hl & s' & Hfrom').
      assert (Hp' : parse_entries (Z.to_nat n) [] (advance 4 table)
                    = (Ok (manifest_entries m), s')).
      { apply parse_entries_spec. exists (manifest_entries m).
        repeat split; [congruence | assumption]. }
      congruence.
  - simpl. split; [discriminate|]. intros (_ & Hsig & _). congruence.
Qed.

Lemma create_manifest_entries_in_order_witness :
  open_rb (py "x.far") (fs (os_with_archive sample_archive)) = Ok sample_archive
  /\ create_manifest (py "x.far") (os_with_archive sample_archive)
     = (Ok sample_manifest, os_with_archive sample_archive)
  /\ (create_manifest (py "x.far") (os_with_archive sample_archive)
      = (Ok sample_manifest, os_with_archive sample_archive)
      <-> (os_with_archive sample_archive = os_with_archive sample_archive
           /\ utf8_decode (read_padded 8 (Stream sample_archive 0)) <> None
           /\ number_of_files sample_manifest
              = from_bytes_little
                  (take 4 (remaining (Stream sample_archive (Z.to_nat 20))))
           /\ List.length (manifest_entries sample_manifest)
              = Z.to_nat (number_of_files sample_manifest)
           /\ exists s',
               entries_from (advance 4 (Stream sample_archive (Z.to_nat 20)))
                 (manifest_entries sample_manifest) s')).
Proof.
  split; [reflexivity|]. split; [vm_compute; reflexivity|].
  apply (create_manifest_entries_in_order (py "x.far")
           (os_with_archive sample_archive) (os_with_archive sample_archive)
           sample_archive sample_manifest).
  reflexivity.
Defined.

(** ** Truncated archives *)

Lemma convert_bytes_short (n_bytes : Z) (type : string) (s : stream) :
  0 <= n_bytes -> (List.length (remaining s) < Z.to_nat n_bytes)%nat ->
  let padding :=
    replicate (Z.to_nat n_bytes - List.length (remaining s)) zero_byte in
  fst (convert_bytes n_bytes type s)
  = fst (convert_bytes n_bytes type (Stream (remaining s ++ padding) 0))
  /\ snd (convert_bytes n_bytes type s)
     = Stream (data s) (pos s + List.length (remaining s)).
Proof.
  intros Hn Hshort padding. subst padding.
  unfold convert_bytes, bind, lift_result.
  rewrite bytearray_nonneg, !readinto_zeros by assumption.
  set (n := Z.to_nat n_bytes) in *.
  set (k := (n - List.length (remaining s))%nat).
  assert (Hpad : read_padded n s = remaining s ++ replicate k zero_byte).
  { unfold read_padded, available. rewrite take_ge by lia. reflexivity. }
  assert (Hext : read_padded n (Stream (remaining s ++ replicate k zero_byte) 0)
                 = remaining s ++ replicate k zero_byte).
  { unfold read_padded, available. unfold remaining at 1 3. simpl data; simpl pos.
    rewrite !drop_0.
    assert (Hlen : List.length (remaining s ++ replicate k zero_byte) = n)
      by (rewrite length_app, length_replicate; unfold k; lia).
    rewrite take_ge by lia. rewrite Hlen, Nat.sub_diag. apply app_nil_r. }
  assert (Hadv : advance n s
                 = Stream (data s) (pos s + List.length (remaining s))).
  { unfold advance, available. rewrite take_ge by lia. reflexivity. }
  rewrite Hpad, Hext, Hadv.
  destruct (String.eqb type "str").
  - destruct (utf8_decode _); split; reflexivity.
  - destruct (String.eqb type "int"); split; reflexivity.
Qed.

Lemma parse_entries_raises_only_decode_errors
  (k : nat) (acc : list ManifestEntry) (s s' : stream) (e : exn) :
  parse_entries k acc s = (Raise e, s') -> e = UnicodeDecodeError.
Proof.
  revert acc s. induction k as [|k IH]; intros acc s; simpl.
  - discriminate.
  - unfold bind. rewrite parse_manifest_entry_unfold.
    destruct (utf8_decode _); [apply IH|].
    intros [= <- _]. reflexivity.
Qed.

Lemma pad_take_zero_ext (n j : nat) (a : list byte) :
  take n (a ++ replicate j zero_byte)
  ++ replicate (n - List.length (take n (a ++ replicate j zero_byte))) zero_byte
  = take n a ++ replicate (n - List.length (take n a)) zero_byte.
Proof.
  destruct (Nat.le_gt_cases n (List.length a)) as [Hle|Hgt].
  - rewrite take_app. replace (n - List.length a)%nat with 0%nat by lia.
    rewrite take_0, app_nil_r. reflexivity.
  - rewrite take_app, take_replicate, (take_ge a) by lia.
    rewrite length_app, length_replicate, <- app_assoc, <- replicate_add.
    f_equal. f_equal. lia.
Qed.

Lemma read_padded_zero_ext (n : nat) (s t : stream) :
  zero_extends s t -> read_padded n s = read_padded n t.
Proof.
  intros [j Hj]. unfold read_padded, available. rewrite Hj.
  symmetry. apply pad_take_zero_ext.
Qed.

Lemma advance_zero_ext (n : nat) (s t : stream) :
  zero_extends s t -> zero_extends (advance n s) (advance n t).
Proof.
  intros [j Hj]. exists (j - (n - List.length (remaining s)))%nat.
  rewrite !remaining_advance, Hj, drop_app, drop_replicate. reflexivity.
Qed.

Lemma seek_zero_ext (d : list byte) (k p : nat) :
  zero_extends (Stream d p) (Stream (d ++ replicate k zero_byte) p).
Proof.
  exists (k - (p - List.length d))%nat. unfold remaining. simpl.
  rewrite drop_app, drop_replicate. reflexivity.
Qed.

Lemma parse_manifest_entry_zero_ext (s t : stream) :
  zero_extends s t ->
  fst (parse_manifest_entry s) = fst (parse_manifest_entry t)
  /\ zero_extends (snd (parse_manifest_entry s)) (snd (parse_manifest_entry t)).
Proof.
  intros H0. rewrite !parse_manifest_entry_unfold.
  pose proof (advance_zero_ext 4 _ _ H0) as H1.
  pose proof (advance_zero_ext 4 _ _ H1) as H2.
  pose proof (advance_zero_ext 4 _ _ H2) as H3.
  pose proof (advance_zero_ext 4 _ _ H3) as H4.
  rewrite (read_padded_zero_ext 4 s t H0), (read_padded_zero_ext 4 _ _ H1),
    (read_padded_zero_ext 4 _ _ H2), (read_padded_zero_ext 4 _ _ H3).
  rewrite (read_padded_zero_ext _ _ _ H4).
  simpl fst; simpl snd. split; [reflexivity|]. apply advance_zero_ext, H4.
Qed.

Lemma parse_entries_zero_ext (k : nat) (acc : list ManifestEntry) (s t : stream) :
  zero_extends s t ->
  fst (parse_entries k acc s) = fst (parse_entries k acc t).
Proof.
  revert acc s t. induction k as [|k IH]; intros acc s t Hst; simpl.
  - reflexivity.
  - unfold bind.
    destruct (parse_manifest_entry_zero_ext s t Hst) as [Hv Hrest].
    destruct (parse_manifest_entry s) as [[e|x] s1];
      destruct (parse_manifest_entry t) as [[e'|x'] t1];
      simpl in Hv, Hrest; try discriminate.
    + injection Hv as <-. apply IH, Hrest.
    + injection Hv as <-. reflexivity.
Qed.

Lemma create_manifest_stream_zero_ext (d : list byte) (k : nat) :
  fst (create_manifest_stream (Stream d 0))
  = fst (create_manifest_stream (Stream (d ++ replicate k zero_byte) 0)).
Proof.
  rewrite !create_manifest_stream_unfold.
  set (d' := d ++ replicate k zero_byte).
  assert (Hany : forall p, zero_extends (Stream d p) (Stream d' p))
    by (intros p; apply seek_zero_ext).
  rewrite <- (read_padded_zero_ext 8 _ _ (Hany 0%nat)).
  destruct (utf8_decode (read_padded 8 (Stream d 0))); [|reflexivity].
  change (drop 12 d) with (remaining (Stream d 12)).
  change (drop 12 d') with (remaining (Stream d' 12)).
  rewrite <- !from_bytes_little_read_padded.
  rewrite <- (read_padded_zero_ext 4 _ _ (Hany 12%nat)).
  set (off := Z.to_nat (from_bytes_little (read_padded 4 (Stream d 12)))).
  rewrite <- (read_padded_zero_ext 4 _ _ (Hany off)).
  pose proof (parse_entries_zero_ext
                (Z.to_nat (from_bytes_little (read_padded 4 (Stream d off))))
                [] _ _ (advance_zero_ext 4 _ _ (Hany off))) as Hp.
  destruct (parse_entries _ [] (advance 4 (Stream d off))) as [[es|e] s1];
    destruct (parse_entries _ [] (advance 4 (Stream d' off))) as [[es'|e'] t1];
    simpl in Hp; try discriminate.
  - injection Hp as <-. reflexivity.
  - injection Hp as <-. reflexivity.
Qed.

Lemma create_manifest_stream_raises_only_decode_errors (d : list byte) (e : exn) :
  fst (create_manifest_stream (Stream d 0)) = Raise e -> e = UnicodeDecodeError.
Proof.
  rewrite create_manifest_stream_unfold.
  destruct (utf8_decode _); [|intros [= <-]; reflexivity].
  destruct (parse_entries _ _ _) as [[es|e'] s1] eqn:Hp; [discriminate|].
  intros [= <-]. eapply parse_entries_raises_only_decode_errors, Hp.
Qed.

(** C2, as the code has it.  A read of [n_bytes] from a stream with fewer
    bytes left does not fail for want of bytes: whatever the kind,
    [convert_bytes] converts the bytes that are left followed by zeros, as
    if the stream had been extended with zeros, and leaves the stream at
    its end; for the kind "int" it returns the little-endian value of the
    bytes that are left.  Consequently parsing never fails for truncation:
    on an archive, [create_manifest] gives the very result (the same
    manifest, or the same exception) that it gives on that archive
    followed by any number of zero bytes, and the only exception that
    parsing an opened archive raises is [UnicodeDecodeError].  In
    particular, when the signature decodes and the table ends exactly after
    fewer complete entries than the declared [number_of_files], the result
    is a manifest with [number_of_files] entries: the entries that are
    there, then all-zero entries with an empty name. *)
Theorem truncated_reads_are_zero_padded :
  (forall (n_bytes : Z) (type : string) (s : stream),
      0 <= n_bytes -> (List.length (remaining s) < Z.to_nat n_bytes)%nat ->
      fst (convert_bytes n_bytes type s)
      = fst (convert_bytes n_bytes type
               (Stream (remaining s
                        ++ replicate (Z.to_nat n_bytes - List.length (remaining s))
                             zero_byte) 0))
      /\ snd (convert_bytes n_bytes type s)
         = Stream (data s) (pos s + List.length (remaining s))
      /\ at_end (snd (convert_bytes n_bytes type s))
      /\ convert_bytes n_bytes "int" s
         = (Ok (VInt (from_bytes_little (remaining s))),
            Stream (data s) (pos s + List.length (remaining s))))
  /\ (forall (d : list byte) (k : nat),
         fst (create_manifest_stream (Stream d 0))
         = fst (create_manifest_stream (Stream (d ++ replicate k zero_byte) 0)))
  /\ (forall (d : list byte) (e : exn),
         fst (create_manifest_stream (Stream d 0)) = Raise e ->
         e = UnicodeDecodeError)
  /\ (forall (d : list byte) (es : list ManifestEntry) (s1 : stream),
         let manifest_offset := from_bytes_little (take 4 (drop 12 d)) in
         let table := Stream d (Z.to_nat manifest_offset) in
         let n := from_bytes_little (take 4 (remaining table)) in
         utf8_decode (read_padded 8 (Stream d 0)) <> None ->
         entries_from (advance 4 table) es s1 -> at_end s1 ->
         Z.of_nat (List.length es) < n ->
         create_manifest_stream (Stream d 0)
         = (Ok (mkManifest n
                  (es ++ replicate (Z.to_nat n - List.length es) zero_entry)),
            s1)).
Proof.
  split; [|split; [|split]].
  - intros n_bytes type s Hn Hshort.
    destruct (convert_bytes_short n_bytes type s Hn Hshort) as [Hv Hs].
    split; [exact Hv|]. split; [exact Hs|]. split.
    + rewrite Hs. unfold at_end, remaining. simpl. rewrite length_drop. lia.
    + rewrite convert_bytes_int by assumption.
      rewrite from_bytes_little_read_padded, take_ge by lia.
      unfold advance, available. rewrite take_ge by lia. reflexivity.
  - exact create_manifest_stream_zero_ext.
  - exact create_manifest_stream_raises_only_decode_errors.
  - intros d es s1 manifest_offset table n Hsig Hes Hend Hlen.
    rewrite create_manifest_stream_unfold. fold manifest_offset table n.
    destruct (utf8_decode (read_padded 8 (Stream d 0))); [|congruence].
    rewrite (parse_entries_truncated (Z.to_nat n) _ s1 es Hes Hend) by lia.
    reflexivity.
Qed.

Lemma truncated_reads_are_zero_padded_witness :
  (0 <= 4 /\ (List.length (remaining (Stream [x01; x02] 0)) < Z.to_nat 4)%nat
   /\ snd (convert_bytes 4 "str" (Stream [x01; x02] 0)) = Stream [x01; x02] 2
   /\ convert_bytes 4 "int" (Stream [x01; x02] 0)
      = (Ok (VInt (from_bytes_little (remaining (Stream [x01; x02] 0)))),
         Stream [x01; x02] 2))
  /\ fst (create_manifest_stream (Stream cut_archive 0))
     = fst (create_manifest_stream
              (Stream (cut_archive ++ replicate 20 zero_byte) 0))
  /\ fst (create_manifest_stream (Stream cut_archive 0))
     = Ok (mkManifest 2 [first_entry; mkManifestEntry 3 3 0 0 []])
  /\ (utf8_decode (read_padded 8 (Stream one_entry_of_three 0)) <> None
      /\ entries_from (advance 4 (Stream one_entry_of_three 16)) [first_entry]
           (Stream one_entry_of_three 41)
      /\ at_end (Stream one_entry_of_three 41)
      /\ Z.of_nat (List.length [first_entry]) < 3
      /\ create_manifest_stream (Stream one_entry_of_three 0)
         = (Ok (mkManifest 3 ([first_entry] ++ replicate 2 zero_entry)),
            Stream one_entry_of_three 41)).
Proof.
  pose proof truncated_reads_are_zero_padded as (Hread & Hext & _ & Hparse).
  assert (H1 : 0 <= 4) by lia.
  assert (H2 : (List.length (remaining (Stream [x01; x02] 0)) < Z.to_nat 4)%nat)
    by (simpl; lia).
  assert (H3 : utf8_decode (read_padded 8 (Stream one_entry_of_three 0)) <> None)
    by discriminate.
  assert (H4 : entries_from (advance 4 (Stream one_entry_of_three 16))
                 [first_entry] (Stream one_entry_of_three 41)).
  { econstructor; [vm_compute; reflexivity | apply entries_from_nil]. }
  assert (H5 : at_end (Stream one_entry_of_three 41))
    by (unfold at_end; simpl; lia).
  assert (H6 : Z.of_nat (List.length [first_entry]) < 3) by (simpl; lia).
  split.
  - split; [exact H1|]. split; [exact H2|].
    destruct (Hread 4 "str"%string (Stream [x01; x02] 0) H1 H2)
      as (_ & Hs & _ & _).
    split; [exact Hs|].
    exact (proj2 (proj2 (proj2 (Hread 4 "int"%string (Stream [x01; x02] 0) H1 H2)))).
  - split; [exact (Hext cut_archive 20%nat)|].
    split; [vm_compute; reflexivity|].
    split; [exact H3|]. split; [exact H4|]. split; [exact H5|].
    split; [exact H6|].
    exact (Hparse one_entry_of_three [first_entry]
             (Stream one_entry_of_three 41) H3 H4 H5 H6).
Defined.

Example name_cut_inside_a_character_raises_decode_error :
  fst (create_manifest_stream (Stream cut_inside_character 0))
  = Raise UnicodeDecodeError
  /\ fst (create_manifest_stream (Stream (cut_inside_character ++ [xa9]) 0))
     = Ok (mkManifest 1 [mkManifestEntry 0 0 0 2 [233%N]]).
Proof. split; vm_compute; reflexivity. Qed.

(** C2, as the specification words it, fails: a stream with two bytes left
    is asked for four and [convert_bytes] returns the integer 513 instead
    of raising; an archive that declares two entries and ends right after
    the count parses to a manifest of two all-zero entries. *)
Lemma truncated_read_does_not_raise :
  (List.length (remaining (Stream [x01; x02] 0)) < 4)%nat
  /\ convert_bytes 4 "int" (Stream [x01; x02] 0)
     = (Ok (VInt 513), Stream [x01; x02] 2)
  /\ List.length truncated_archive = 20%nat
  /\ create_manifest (py "x.far") (os_with_archive truncated_archive)
     = (Ok (mkManifest 2 [zero_entry; zero_entry]),
        os_with_archive truncated_archive)
  /\ ~ (exists e o',
           create_manifest (py "x.far") (os_with_archive truncated_archive)
           = (Raise e, o')).
Proof.
  assert (Hrun : create_manifest (py "x.far") (os_with_archive truncated_archive)
                 = (Ok (mkManifest 2 [zero_entry; zero_entry]),
                    os_with_archive truncated_archive))
    by (vm_compute; reflexivity).
  split; [simpl; lia|]. split; [reflexivity|]. split; [reflexivity|].
  split; [exact Hrun|].
  intros (e & o' & He). rewrite Hrun in He. discriminate He.
Qed.

(** ** Extraction *)

Section ExtractionProperties.
Context {FS : Type} `{FileSystem FS}.

Lemma extract_manifest_entry_unfold
  (entry : ManifestEntry) (output_path : pystr) (s : stream) (o : os_state FS)
  (buf : list byte) (s' : stream) :
  get_bytes (file_offset entry) (length entry) s = (Ok buf, s') ->
  let file_path := path_join output_path (file_name entry) in
  extract_manifest_entry entry output_path (s, o)
  = match makedirs (dirname file_path) (fs o) with
    | (Raise e, f1) => (Raise e, (s', OsState f1 (stdout o)))
    | (Ok _, f1) =>
      match write_file file_path buf f1 with
      | (Ok _, f2) => (Ok tt, (s', OsState f2 (stdout o)))
      | (Raise (OSError msg), f2) =>
        (Ok tt, (s', OsState f2 (stdout o ++ failure_report file_path msg)))
      | (Raise e, f2) => (Raise e, (s', OsState f2 (stdout o)))
      end
    end.
Proof.
  intros Hget file_path.
  unfold extract_manifest_entry, bind, on_stream, on_fs, try_except_IOError.
  simpl fst; simpl snd. rewrite Hget. fold file_path. simpl.
  destruct (makedirs (dirname file_path) (fs o)) as [[[]|e] f1]; simpl;
    [|reflexivity].
  destruct (write_file file_path buf f1) as [[[]|e] f2]; simpl;
    [reflexivity|].
  destruct e; try reflexivity.
  unfold print, failure_report. simpl. rewrite <- app_assoc. reflexivity.
Qed.

Lemma for_each_app {S A : Type} (a b : list A) (body : A -> M S unit) (w : S) :
  for_each (a ++ b) body w
  = match for_each a body w with
    | (Ok _, w') => for_each b body w'
    | (Raise e, w') => (Raise e, w')
    end.
Proof.
  revert w. induction a as [|x a IH]; intros w; simpl.
  - reflexivity.
  - unfold bind. destruct (body x w) as [[[]|e] w']; [apply IH | reflexivity].
Qed.

(** C1.  On a file system where a file that was written without error
    reads back as written: when the archive holds at least
    [file_offset + length] bytes, and [extract_manifest_entry] returns
    having reported no failure, the file at the destination path holds
    exactly the [length] bytes of the archive from [file_offset] on. *)
Theorem extract_then_read_back
  (entry : ManifestEntry) (output_path : pystr)
  (s s' : stream) (o o' : os_state FS) :
  (forall p b f f', write_file p b f = (Ok tt, f') -> open_rb p f' = Ok b) ->
  0 <= file_offset entry -> 0 <= length entry ->
  file_offset entry + length entry <= Z.of_nat (List.length (data s)) ->
  extract_manifest_entry entry output_path (s, o) = (Ok tt, (s', o')) ->
  stdout o' = stdout o ->
  open_rb (path_join output_path (file_name entry)) (fs o')
  = Ok (take (Z.to_nat (length entry))
          (drop (Z.to_nat (file_offset entry)) (data s))).
Proof.
  intros Hlaw Hoff Hlen Hfit Hrun Hquiet.
  destruct (read_padded_in_bounds (Z.to_nat (length entry))
              (Stream (data s) (Z.to_nat (file_offset entry))))
    as [Hbuf _]; [simpl; lia|]. simpl in Hbuf.
  rewrite (extract_manifest_entry_unfold _ _ _ _ _ _
             (get_bytes_unfold _ _ s Hoff Hlen)) in Hrun.
  rewrite Hbuf in Hrun.
  destruct (makedirs _ (fs o)) as [[[]|e] f1]; [|discriminate].
  destruct (write_file _ _ f1) as [[[]|e] f2] eqn:Hw.
  - injection Hrun as <- <-. simpl. eapply Hlaw, Hw.
  - destruct e; try discriminate.
    injection Hrun as <- <-. simpl in Hquiet.
    apply (f_equal (@List.length pystr)) in Hquiet.
    rewrite length_app in Hquiet. simpl in Hquiet. lia.
Qed.

(** C4, as the code has it.  When the directories of an entry's
    destination were created and opening or writing the destination file
    raises an [IOError], [extract_manifest_entry] prints the two lines of
    its report and returns normally, and [extract_manifest_files] goes on
    with all the entries after it, from the state that this failed attempt
    left. *)
Theorem write_failure_is_reported_and_batch_continues
  (before after : list ManifestEntry) (entry : ManifestEntry)
  (number : Z) (output_path far_file_path : pystr)
  (o0 : os_state FS) (d : list byte)
  (s1 s2 : stream) (f1 f2 f3 : FS) (printed : list pystr)
  (buf : list byte) (error : pystr) :
  let file_path := path_join output_path (file_name entry) in
  let body := fun e => extract_manifest_entry e output_path in
  let w2 := (s2, OsState f3 (printed ++ failure_report file_path error)) in
  open_rb far_file_path (fs o0) = Ok d ->
  for_each before body (Stream d 0, o0) = (Ok tt, (s1, OsState f1 printed)) ->
  get_bytes (file_offset entry) (length entry) s1 = (Ok buf, s2) ->
  makedirs (dirname file_path) f1 = (Ok tt, f2) ->
  write_file file_path buf f2 = (Raise (OSError error), f3) ->
  extract_manifest_entry entry output_path (s1, OsState f1 printed) = (Ok tt, w2)
  /\ extract_manifest_files
       (mkManifest number (before ++ entry :: after)) output_path far_file_path o0
     = (fst (for_each after body w2), snd (snd (for_each after body w2))).
Proof.
  intros file_path body w2 Hopen Hbefore Hget Hmk Hwrite.
  assert (Hentry : extract_manifest_entry entry output_path
                     (s1, OsState f1 printed) = (Ok tt, w2)).
  { rewrite (extract_manifest_entry_unfold _ _ _ _ _ _ Hget).
    fold file_path. simpl fs. rewrite Hmk, Hwrite. reflexivity. }
  split; [exact Hentry|].
  unfold extract_manifest_files, with_open_rb. rewrite Hopen.
  simpl manifest_entries. fold body.
  rewrite for_each_app, Hbefore. simpl for_each. unfold bind at 1.
  unfold body at 1. rewrite Hentry.
  destruct (for_each after body w2) as [r w3]. reflexivity.
Qed.

End ExtractionProperties.

(** ** The POSIX-like file system *)

Lemma lookup_node_cons_same (k : list pystr) (n : node)
  (t : list (list pystr * node)) :
  k <> [] -> lookup_node k ((k, n) :: t) = Some n.
Proof.
  intros Hk. destruct k as [|c k]; [contradiction|].
  simpl. rewrite bool_decide_eq_true_2 by reflexivity. reflexivity.
Qed.

Lemma lookup_node_cons_other (k k' : list pystr) (n : node)
  (t : list (list pystr * node)) :
  k' <> k -> lookup_node k ((k', n) :: t) = lookup_node k t.
Proof.
  intros Hk. destruct k as [|c k]; [reflexivity|].
  simpl. rewrite bool_decide_eq_false_2 by assumption. reflexivity.
Qed.

(** A file written without error reads back as written. *)
Lemma posix_write_then_open (p : pystr) (b : list byte) (f f' : posix_fs) :
  write_file p b f = (Ok tt, f') -> open_rb p f' = Ok b.
Proof.
  simpl. unfold posix_write_file, posix_open_rb.
  destruct (has_nul p); [discriminate|].
  destruct (bool_decide (p = [])); [discriminate|].
  set (k := resolve (cwd f) p).
  destruct (lookup_node k (tree f)) as [[c|]|] eqn:Hk;
    destruct (lookup_node (removelast k) (tree f)) as [[c'|]|];
    try discriminate;
    destruct (ends_with_sep p); try discriminate;
    intros [= <-]; simpl cwd; simpl tree; fold k;
    (rewrite lookup_node_cons_same;
     [reflexivity | intros ->; simpl in Hk; discriminate Hk]).
Qed.

Lemma extract_then_read_back_witness :
  (forall p b (f f' : posix_fs),
      write_file p b f = (Ok tt, f') -> open_rb p f' = Ok b)
  /\ 0 <= file_offset first_entry
  /\ 0 <= length first_entry
  /\ file_offset first_entry + length first_entry
     <= Z.of_nat (List.length (data (Stream sample_archive 0)))
  /\ extract_manifest_entry first_entry (py "out")
       (Stream sample_archive 0, os_with_archive sample_archive)
     = (Ok tt, (fst (snd first_entry_run), snd (snd first_entry_run)))
  /\ stdout (snd (snd first_entry_run)) = stdout (os_with_archive sample_archive)
  /\ open_rb (path_join (py "out") (file_name first_entry))
       (fs (snd (snd first_entry_run)))
     = Ok (take (Z.to_nat (length first_entry))
             (drop (Z.to_nat (file_offset first_entry))
                (data (Stream sample_archive 0)))).
Proof.
  assert (H1 : 0 <= file_offset first_entry) by (simpl; lia).
  assert (H2 : 0 <= length first_entry) by (simpl; lia).
  assert (H3 : file_offset first_entry + length first_entry
               <= Z.of_nat (List.length (data (Stream sample_archive 0))))
    by (vm_compute; discriminate).
  assert (H4 : extract_manifest_entry first_entry (py "out")
                 (Stream sample_archive 0, os_with_archive sample_archive)
               = (Ok tt, (fst (snd first_entry_run), snd (snd first_entry_run))))
    by (vm_compute; reflexivity).
  assert (H5 : stdout (snd (snd first_entry_run))
               = stdout (os_with_archive sample_archive))
    by (vm_compute; reflexivity).
  split; [exact posix_write_then_open|].
  split; [exact H1|]. split; [exact H2|]. split; [exact H3|].
  split; [exact H4|]. split; [exact H5|].
  exact (extract_then_read_back first_entry (py "out") _ _ _ _
           posix_write_then_open H1 H2 H3 H4 H5).
Defined.

Lemma write_failure_is_reported_and_batch_continues_witness :
  exists (s1 s2 : stream) (f1 f2 f3 : posix_fs) (printed : list pystr)
         (buf : list byte) (error : pystr) (final : os_state posix_fs),
    open_rb (py "x.far") (fs (os_with_archive sample_archive)) = Ok sample_archive
    /\ for_each [mkManifestEntry 4 4 0 3 (py "d/a")]
         (fun e => extract_manifest_entry e (py "out"))
         (Stream sample_archive 0, os_with_archive sample_archive)
       = (Ok tt, (s1, OsState f1 printed))
    /\ get_bytes 4 4 s1 = (Ok buf, s2)
    /\ makedirs (dirname (py "out/d")) f1 = (Ok tt, f2)
    /\ write_file (py "out/d") buf f2 = (Raise (OSError error), f3)
    /\ extract_manifest_entry (mkManifestEntry 4 4 4 1 (py "d")) (py "out")
         (s1, OsState f1 printed)
       = (Ok tt, (s2, OsState f3 (printed ++ failure_report (py "out/d") error)))
    /\ extract_manifest_files manifest_with_unwritable_entry (py "out") (py "x.far")
         (os_with_archive sample_archive)
       = (Ok tt, final)
    /\ stdout final = failure_report (py "out/d") error
    /\ open_rb (py "out/c") (fs final) = Ok (le32 1).
Proof.
  eexists _, _, _, _, _, _, _, _, _.
  assert (Hopen : open_rb (py "x.far") (fs (os_with_archive sample_archive))
                  = Ok sample_archive) by reflexivity.
  split; [exact Hopen|].
  match goal with |- ?A /\ ?B /\ ?C /\ ?D /\ _ =>
    assert (Hbefore : A) by (vm_compute; reflexivity);
    assert (Hget : B) by (vm_compute; reflexivity);
    assert (Hmk : C) by (vm_compute; reflexivity);
    assert (Hwrite : D) by (vm_compute; reflexivity)
  end.
  split; [exact Hbefore|]. split; [exact Hget|]. split; [exact Hmk|].
  split; [exact Hwrite|].
  pose proof (write_failure_is_reported_and_batch_continues
                [mkManifestEntry 4 4 0 3 (py "d/a")]
                [mkManifestEntry 4 4 8 1 (py "c")]
                (mkManifestEntry 4 4 4 1 (py "d")) 3 (py "out") (py "x.far")
                _ _ _ _ _ _ _ _ _ _ Hopen Hbefore Hget Hmk Hwrite)
    as [Hentry Hbatch].
  split; [exact Hentry|].
  match type of Hbatch with
  | _ = ?run =>
    assert (Hrun : extract_manifest_files manifest_with_unwritable_entry
                     (py "out") (py "x.far") (os_with_archive sample_archive)
                   = run) by exact Hbatch
  end.
  split; [rewrite Hrun; vm_compute; reflexivity|].
  split; vm_compute; reflexivity.
Defined.

(** C4, as the specification words it, fails.  First scenario: the first
    entry puts a regular file at [out/a], so creating the directory [out/a]
    for the second entry raises an [OSError] outside the [try] block; the
    batch stops there, nothing is reported and the third entry is never
    extracted.  Second scenario: the name of the first entry holds a NUL
    character, [open] refuses the path with a [ValueError], which
    [except IOError] does not catch; again nothing is reported and the
    entry after it is never extracted. *)
Lemma single_entry_failure_aborts_the_batch :
  (exists final : os_state posix_fs,
      extract_manifest_files manifest_with_clashing_directory
        (py "out") (py "x.far") (os_with_archive sample_archive)
      = (Raise (os_error "[Errno 17] File exists" (py "out/a")), final)
      /\ stdout final = []
      /\ open_rb (py "out/a") (fs final) = Ok (ascii_bytes "SIMS")
      /\ open_rb (py "out/c") (fs final)
         = Raise (os_error "[Errno 2] No such file or directory" (py "out/c")))
  /\ (exists final : os_state posix_fs,
         extract_manifest_files manifest_with_nul_name
           (py "out") (py "x.far") (os_with_archive sample_archive)
         = (Raise (ValueError "embedded null byte"), final)
         /\ stdout final = []
         /\ open_rb (py "out/c") (fs final)
            = Raise (os_error "[Errno 2] No such file or directory"
                       (py "out/c"))).
Proof.
  split; eexists;
    (split; [vm_compute; reflexivity|]);
    repeat split; vm_compute; reflexivity.
Qed.

(** *** Which files an extraction touches *)

Lemma file_at_cons_dir (c : list pystr) (k0 k : list pystr)
  (t : list (list pystr * node)) :
  k0 <> [] -> lookup_node k0 t = None ->
  file_at (PosixFs c ((k0, Dir) :: t)) k = file_at (PosixFs c t) k.
Proof.
  intros Hne Hnone. unfold file_at. simpl tree.
  destruct (decide (k0 = k)) as [<-|Hk].
  - rewrite lookup_node_cons_same, Hnone by assumption. reflexivity.
  - rewrite lookup_node_cons_other by assumption. reflexivity.
Qed.

Lemma mkdir_chain_keeps_files (c : list pystr) (name : pystr)
  (todo done : list pystr) (t t' : list (list pystr * node)) (r : result unit) :
  mkdir_chain name done todo t = (r, t') ->
  forall k, file_at (PosixFs c t') k = file_at (PosixFs c t) k.
Proof.
  revert done t. induction todo as [|x todo IH]; intros done t; simpl.
  - intros [= _ <-] k. reflexivity.
  - destruct (lookup_node (done ++ [x]) t) as [[content|]|] eqn:Hl.
    + intros [= _ <-] k. reflexivity.
    + apply IH.
    + intros Hrun k. rewrite (IH _ _ Hrun k).
      apply file_at_cons_dir; [|exact Hl].
      intros Hnil. apply app_eq_nil in Hnil as [_ Hnil]. discriminate Hnil.
Qed.

Lemma posix_makedirs_keeps_files (name : pystr) (f f' : posix_fs)
  (r : result unit) :
  posix_makedirs name f = (r, f') ->
  cwd f' = cwd f /\ forall k, file_at f' k = file_at f k.
Proof.
  unfold posix_makedirs.
  destruct (has_nul name); [intros [= _ <-]; split; reflexivity|].
  destruct (bool_decide (name = [])); [intros [= _ <-]; split; reflexivity|].
  destruct (mkdir_chain name [] (resolve (cwd f) name) (tree f))
    as [r0 t'] eqn:Hchain.
  intros [= _ <-]. split; [reflexivity|]. intros k.
  rewrite (mkdir_chain_keeps_files (cwd f) _ _ _ _ _ _ Hchain k).
  destruct f; reflexivity.
Qed.

Lemma posix_write_file_touches_one (p : pystr) (b : list byte)
  (f f' : posix_fs) (r : result unit) :
  posix_write_file p b f = (r, f') ->
  cwd f' = cwd f
  /\ forall k, k <> resolve (cwd f) p -> file_at f' k = file_at f k.
Proof.
  unfold posix_write_file.
  destruct (has_nul p); [intros [= _ <-]; split; reflexivity|].
  destruct (bool_decide (p = [])); [intros [= _ <-]; split; reflexivity|].
  set (k0 := resolve (cwd f) p).
  destruct (lookup_node k0 (tree f)) as [[c|]|];
    destruct (lookup_node (removelast k0) (tree f)) as [[c'|]|];
    try (intros [= _ <-]; split; reflexivity);
    (destruct (ends_with_sep p); [intros [= _ <-]; split; reflexivity|]);
    intros [= _ <-]; (split; [reflexivity|]); intros k Hk;
    unfold file_at; simpl tree;
    rewrite lookup_node_cons_other by congruence; reflexivity.
Qed.

(** *** Where a joined path lies *)

Lemma split_sep_nonempty (p : pystr) : split_sep p <> [].
Proof.
  destruct p as [|c r]; simpl; [discriminate|].
  destruct (c =? slash)%N; [discriminate|].
  destruct (split_sep r); discriminate.
Qed.

Lemma split_sep_app (p q : pystr) :
  split_sep (p ++ slash :: q) = split_sep p ++ split_sep q.
Proof.
  induction p as [|c p IH]; simpl.
  - reflexivity.
  - destruct (c =? slash)%N; [rewrite IH; reflexivity|].
    rewrite IH. pose proof (split_sep_nonempty p) as Hne.
    destruct (split_sep p); [contradiction | reflexivity].
Qed.

Lemma components_app (p q : pystr) :
  components (p ++ slash :: q) = components p ++ components q.
Proof.
  unfold components. rewrite split_sep_app. apply filter_app.
Qed.

Lemma resolve_without_dotdot (comps stack : list pystr) :
  Forall (fun c => is_dotdot c = false) comps ->
  fold_left resolve_step comps stack = stack ++ comps.
Proof.
  intros Hall. revert stack.
  induction Hall as [|c comps Hc _ IH]; intros stack; simpl.
  - rewrite app_nil_r. reflexivity.
  - unfold resolve_step at 2. rewrite Hc, IH, <- app_assoc. reflexivity.
Qed.

Lemma resolve_app (c : list pystr) (p q : pystr) :
  Forall (fun x => is_dotdot x = false) (components q) ->
  resolve c (p ++ slash :: q)
  = fold_left resolve_step (components p)
      (if starts_with_sep (p ++ slash :: q) then [] else c) ++ components q.
Proof.
  intros Hq. unfold resolve.
  rewrite components_app, fold_left_app. apply resolve_without_dotdot, Hq.
Qed.

Lemma join_under_root (c : list pystr) (output_path name : pystr) :
  starts_with_sep name = false ->
  Forall (fun x => is_dotdot x = false) (components name) ->
  resolve c output_path `prefix_of` resolve c (path_join output_path name).
Proof.
  intros Hrel Hname. unfold path_join. rewrite Hrel.
  destruct (bool_decide_reflect (output_path = [])) as [->|Hne]; simpl orb.
  - simpl. unfold resolve at 2. rewrite Hrel.
    rewrite resolve_without_dotdot by assumption.
    apply prefix_app_r. reflexivity.
  - destruct (ends_with_sep output_path) eqn:Hend.
    + unfold ends_with_sep in Hend.
      destruct (last output_path) as [x|] eqn:Hlast; [|discriminate].
      apply last_Some in Hlast as [o' ->].
      apply N.eqb_eq in Hend. subst x.
      rewrite <- app_assoc. simpl app.
      rewrite (resolve_app c o' name) by assumption.
      rewrite (resolve_app c o' []) by constructor.
      change (components []) with (@nil pystr). rewrite app_nil_r.
      replace (starts_with_sep (o' ++ slash :: name))
        with (starts_with_sep (o' ++ [slash]))
        by (destruct o'; reflexivity).
      apply prefix_app_r. reflexivity.
    + simpl app. rewrite (resolve_app c output_path name) by assumption.
      unfold resolve.
      replace (starts_with_sep (output_path ++ slash :: name))
        with (starts_with_sep output_path)
        by (destruct output_path; [contradiction | reflexivity]).
      apply prefix_app_r. reflexivity.
Qed.

Lemma extract_touches_only_destination
  (entry : ManifestEntry) (output_path : pystr) (s s' : stream)
  (f : posix_fs) (printed : list pystr) (r : result unit)
  (o' : os_state posix_fs) :
  extract_manifest_entry entry output_path (s, OsState f printed) = (r, (s', o')) ->
  forall k,
    k <> resolve (cwd f) (path_join output_path (file_name entry)) ->
    file_at (fs o') k = file_at f k.
Proof.
  destruct (get_bytes (file_offset entry) (length entry) s)
    as [[buf|e] s1] eqn:Hget.
  - rewrite (extract_manifest_entry_unfold _ _ _ _ _ _ Hget). simpl.
    destruct (posix_makedirs _ f) as [r1 f1] eqn:Hmk.
    apply posix_makedirs_keeps_files in Hmk as [Hcwd Hkeep].
    destruct r1 as [[]|e]; [|intros [= _ _ <-] k _; apply Hkeep].
    destruct (posix_write_file _ buf f1) as [r2 f2] eqn:Hw.
    apply posix_write_file_touches_one in Hw as [_ Hone].
    rewrite Hcwd in Hone.
    assert (Hgoal : forall k,
               k <> resolve (cwd f) (path_join output_path (file_name entry)) ->
               file_at f2 k = file_at f k).
    { intros k Hk. rewrite (Hone k Hk). apply Hkeep. }
    destruct r2 as [[]|[]]; intros [= _ _ <-]; exact Hgoal.
  - unfold extract_manifest_entry, bind, on_stream. simpl fst; simpl snd.
    rewrite Hget. intros [= _ _ <-] k _. reflexivity.
Qed.

(** C3, as the code has it.  [extract_manifest_entry] checks no name: for
    every entry, the only file that an extraction creates or changes is the
    one at [os.path.join(output_path, file_name)], whatever the name.  When
    the name is relative (does not begin with a slash) and has no [..]
    component, that file lies under the output root. *)
Theorem extraction_writes_the_joined_path
  (entry : ManifestEntry) (output_path : pystr) (s s' : stream)
  (f : posix_fs) (printed : list pystr) (r : result unit)
  (o' : os_state posix_fs) (k : list pystr) :
  extract_manifest_entry entry output_path (s, OsState f printed) = (r, (s', o')) ->
  file_at (fs o') k <> file_at f k ->
  k = resolve (cwd f) (path_join output_path (file_name entry))
  /\ (starts_with_sep (file_name entry) = false ->
      Forall (fun c => is_dotdot c = false) (components (file_name entry)) ->
      resolve (cwd f) output_path `prefix_of` k
      /\ under_root (cwd f) output_path
           (path_join output_path (file_name entry)) = true).
Proof.
  intros Hrun Hchanged.
  destruct (decide (k = resolve (cwd f)
                         (path_join output_path (file_name entry))))
    as [->|Hk].
  - split; [reflexivity|]. intros Hrel Hname.
    pose proof (join_under_root (cwd f) output_path _ Hrel Hname) as Hunder.
    split; [exact Hunder|].
    unfold under_root. apply bool_decide_eq_true_2, Hunder.
  - exfalso. apply Hchanged.
    exact (extract_touches_only_destination _ _ _ _ _ _ _ _ Hrun k Hk).
Qed.

Lemma extraction_writes_the_joined_path_witness :
  extract_manifest_entry first_entry (py "out")
    (Stream sample_archive 0, OsState (fs_with_archive sample_archive) [])
  = (fst first_entry_run,
     (fst (snd first_entry_run), snd (snd first_entry_run)))
  /\ file_at (fs (snd (snd first_entry_run))) [py "home"; py "out"; py "a.txt"]
     <> file_at (fs_with_archive sample_archive)
          [py "home"; py "out"; py "a.txt"]
  /\ starts_with_sep (file_name first_entry) = false
  /\ Forall (fun c => is_dotdot c = false) (components (file_name first_entry))
  /\ [py "home"; py "out"; py "a.txt"]
     = resolve (cwd (fs_with_archive sample_archive))
         (path_join (py "out") (file_name first_entry))
  /\ resolve (cwd (fs_with_archive sample_archive)) (py "out")
     `prefix_of` [py "home"; py "out"; py "a.txt"]
  /\ under_root (cwd (fs_with_archive sample_archive)) (py "out")
       (path_join (py "out") (file_name first_entry))
     = true.
Proof.
  assert (H1 : starts_with_sep (file_name first_entry) = false) by reflexivity.
  assert (H2 : Forall (fun c => is_dotdot c = false)
                 (components (file_name first_entry)))
    by (vm_compute; repeat constructor).
  assert (H3 : extract_manifest_entry first_entry (py "out")
                 (Stream sample_archive 0,
                  OsState (fs_with_archive sample_archive) [])
               = (fst first_entry_run,
                  (fst (snd first_entry_run), snd (snd first_entry_run))))
    by (vm_compute; reflexivity).
  assert (H4 : file_at (fs (snd (snd first_entry_run)))
                 [py "home"; py "out"; py "a.txt"]
               <> file_at (fs_with_archive sample_archive)
                    [py "home"; py "out"; py "a.txt"])
    by (vm_compute; discriminate).
  split; [exact H3|]. split; [exact H4|]. split; [exact H1|]. split; [exact H2|].
  destruct (extraction_writes_the_joined_path first_entry (py "out")
              _ _ _ _ _ _ _ H3 H4) as [Hk Hunder].
  split; [exact Hk|]. exact (Hunder H1 H2).
Defined.

(** C3, as the specification words it, fails: no name is rejected.  An
    entry with an absolute name is written where the name says, and an
    entry whose name climbs with [..] is written beside the output root;
    both extractions return normally and report nothing. *)
Lemma unguarded_names_escape_output_root :
  (exists s' o',
      extract_manifest_entry absolute_entry (py "out")
        (Stream sample_archive 0, os_with_archive sample_archive)
      = (Ok tt, (s', o'))
      /\ stdout o' = []
      /\ path_join (py "out") (file_name absolute_entry) = py "/tmp/x.txt"
      /\ open_rb (py "/tmp/x.txt") (fs o') = Ok (ascii_bytes "SIMS")
      /\ under_root [py "home"] (py "out") (py "/tmp/x.txt") = false)
  /\ (exists s' o',
         extract_manifest_entry climbing_entry (py "out")
           (Stream sample_archive 0, os_with_archive sample_archive)
         = (Ok tt, (s', o'))
         /\ stdout o' = []
         /\ path_join (py "out") (file_name climbing_entry) = py "out/../x.txt"
         /\ open_rb (py "/home/x.txt") (fs o') = Ok (ascii_bytes "SIMS")
         /\ under_root [py "home"] (py "out") (py "out/../x.txt") = false).
Proof.
  split; eexists _, _;
    (split; [vm_compute; reflexivity|]);
    repeat split; vm_compute; reflexivity.
Qed.

(** ** Worked examples *)

Example utf8_decode_two_bytes : utf8_decode [xc3; xa9] = Some [233%N].
Proof. reflexivity. Qed.

Example utf8_decode_rejects_overlong : utf8_decode [xc0; x80] = None.
Proof. reflexivity. Qed.

Example utf8_decode_rejects_surrogate : utf8_decode [xed; xa0; x80] = None.
Proof. reflexivity. Qed.

Example utf8_decode_four_bytes :
  utf8_decode [xf0; x9f; x98; x80] = Some [128512%N].
Proof. reflexivity. Qed.

Example convert_bytes_unsupported_type :
  convert_bytes 2 "float" (Stream [x01; x02; x03] 0)
  = (Raise (ValueError "Type not supported."), Stream [x01; x02; x03] 2).
Proof. reflexivity. Qed.

Example convert_bytes_negative_count :
  convert_bytes (-1) "int" (Stream [x01] 0)
  = (Raise (ValueError "negative count"), Stream [x01] 0).
Proof. reflexivity. Qed.

Example path_join_relative :
  path_join (py "out") (py "dir/b.txt") = py "out/dir/b.txt".
Proof. reflexivity. Qed.

Example path_join_after_separator :
  path_join (py "out/") (py "a.txt") = py "out/a.txt".
Proof. reflexivity. Qed.

Example path_join_absolute : path_join (py "out") (py "/etc/x") = py "/etc/x".
Proof. reflexivity. Qed.

Example path_join_empty_name : path_join (py "out") [] = py "out/".
Proof. reflexivity. Qed.

Example dirname_nested : dirname (py "out/dir/b.txt") = py "out/dir".
Proof. reflexivity. Qed.

Example dirname_plain : dirname (py "a.txt") = [].
Proof. reflexivity. Qed.

Example dirname_of_root_child : dirname (py "/a") = py "/".
Proof. reflexivity. Qed.

Example dirname_doubled_separator : dirname (py "a//b") = py "a".
Proof. reflexivity. Qed.

Example sample_archive_parses :
  create_manifest_stream (Stream sample_archive 0)
  = (Ok sample_manifest, Stream sample_archive 70).
Proof. vm_compute. reflexivity. Qed.

Example lookup_after_normalisation :
  get_manifest_entry_by_name sample_manifest (py "dir/b.txt")
  = Ok (mkManifestEntry 3 3 5 9 (py "dir/b.txt"))
  /\ get_manifest_entry_by_name sample_manifest (py "dir\b.txt")
     = Raise (ValueError "File name not found in Manifest.")
  /\ get_manifest_entry_by_name sample_manifest (py "A.TXT")
     = Raise (ValueError "File name not found in Manifest.").
Proof. repeat split; vm_compute; reflexivity. Qed.

Example sample_archive_extracts :
  exists final : os_state posix_fs,
    extract_manifest_files sample_manifest (py "out") (py "x.far")
      (os_with_archive sample_archive)
    = (Ok tt, final)
    /\ stdout final = []
    /\ open_rb (py "out/a.txt") (fs final) = Ok (ascii_bytes "SIMSF")
    /\ open_rb (py "out/dir/b.txt") (fs final) = Ok (ascii_bytes "AR ")
    /\ lookup_node [py "home"; py "out"; py "dir"] (tree (fs final)) = Some Dir.
Proof.
  eexists. split; [vm_compute; reflexivity|].
  repeat split; vm_compute; reflexivity.
Qed.

Example missing_archive_is_fatal :
  extract_manifest_files sample_manifest (py "out") (py "y.far")
    (os_with_archive sample_archive)
  = (Raise (os_error "[Errno 2] No such file or directory" (py "y.far")),
     os_with_archive sample_archive).
Proof. vm_compute. reflexivity. Qed.

Example empty_name_is_reported_by_the_file_system :
  exists s' f',
    extract_manifest_entry (mkManifestEntry 4 4 0 0 []) (py "out")
      (Stream sample_archive 0, os_with_archive sample_archive)
    = (Ok tt,
       (s', OsState f'
              (failure_report (py "out/")
                 (py "[Errno 21] Is a directory: 'out/'")))).
Proof. eexists _, _. vm_compute. reflexivity. Qed.

Example name_with_nul_aborts :
  exists w',
    extract_manifest_entry (mkManifestEntry 4 4 0 2 [97%N; 0%N]) (py "out")
      (Stream sample_archive 0, os_with_archive sample_archive)
    = (Raise (ValueError "embedded null byte"), w').
Proof. eexists. vm_compute. reflexivity. Qed.

(** * Further properties of the decoder and the extractor *)

(** ** What a read consumes *)

Lemma read_exact (n : nat) (s : stream) (x rest : list byte) :
  remaining s = x ++ rest -> List.length x = n ->
  read_padded n s = x
  /\ advance n s = Stream (data s) (pos s + n)
  /\ remaining (advance n s) = rest.
Proof.
  intros Hrem Hlen.
  assert (Hav : available n s = x).
  { unfold available. rewrite Hrem, take_app_length'; [reflexivity | symmetry; exact Hlen]. }
  split; [|split].
  - unfold read_padded. rewrite Hav, Hlen, Nat.sub_diag. apply app_nil_r.
  - unfold advance. rewrite Hav, Hlen. reflexivity.
  - rewrite remaining_advance, Hrem, drop_app_length';
      [reflexivity | symmetry; exact Hlen].
Qed.

Lemma byte_val_byte_of_Z (n : Z) : byte_val (byte_of_Z n) = n mod 256.
Proof.
  unfold byte_val, byte_of_Z.
  pose proof (Z.mod_pos_bound n 256 ltac:(lia)) as Hm.
  destruct (Byte.of_N (Z.to_N (n mod 256))) as [b|] eqn:Hb.
  - apply Byte.to_of_N in Hb. rewrite Hb. lia.
  - apply Byte.of_N_None_iff in Hb. lia.
Qed.

Lemma from_bytes_little_le32 (n : Z) : u32 n -> from_bytes_little (le32 n) = n.
Proof.
  unfold u32. change (2 ^ 32) with 4294967296. intros Hn.
  unfold le32. simpl from_bytes_little. rewrite !byte_val_byte_of_Z.
  Z.to_euclidean_division_equations. lia.
Qed.

Lemma length_le32 (n : Z) : List.length (le32 n) = 4%nat.
Proof. reflexivity. Qed.

Lemma length_name_bytes (name : pystr) :
  List.length (name_bytes name) = List.length name.
Proof. apply length_map. Qed.

Lemma utf8_decode_ascii (name : pystr) :
  Forall (fun c => (c < 128)%N) name -> utf8_decode (name_bytes name) = Some name.
Proof.
  induction 1 as [|c name Hc _ IH]; [reflexivity|].
  simpl name_bytes. simpl utf8_decode. fold (name_bytes name).
  assert (Hto : Byte.to_N (byte_of_Z (Z.of_N c)) = c).
  { pose proof (byte_val_byte_of_Z (Z.of_N c)) as Hv. unfold byte_val in Hv.
    rewrite Z.mod_small in Hv by lia. lia. }
  rewrite Hto, IH.
  destruct (N.ltb_spec c 128); [reflexivity | lia].
Qed.

Lemma read_padded_ext (n : nat) (s t : stream) :
  remaining s = remaining t -> read_padded n s = read_padded n t.
Proof.
  intros Heq. unfold read_padded, available. rewrite Heq. reflexivity.
Qed.

Lemma remaining_advance_ext (n : nat) (s t : stream) :
  remaining s = remaining t ->
  remaining (advance n s) = remaining (advance n t).
Proof.
  intros Heq. rewrite !remaining_advance, Heq. reflexivity.
Qed.

Lemma pos_advance (n : nat) (s : stream) :
  (pos s <= pos (advance n s) <= pos s + n)%nat.
Proof.
  unfold advance. simpl pos. rewrite length_available. lia.
Qed.

(** X1.  [convert_bytes] checks the kind only after it has read: for a
    non-negative count and a kind that is neither "str" nor "int" it raises
    [ValueError("Type not supported.")], and the stream has moved past the
    bytes that were read. *)
Theorem convert_bytes_unsupported_kind_after_reading
  (n_bytes : Z) (type : string) (s : stream) :
  0 <= n_bytes -> type <> "str"%string -> type <> "int"%string ->
  convert_bytes n_bytes type s
  = (Raise (ValueError "Type not supported."),
     Stream (data s)
       (pos s + Z.to_nat n_bytes `min` (List.length (data s) - pos s))).
Proof.
  intros Hn Hstr Hint. unfold convert_bytes, bind, lift_result.
  rewrite bytearray_nonneg, readinto_zeros by assumption.
  apply String.eqb_neq in Hstr. apply String.eqb_neq in Hint.
  rewrite Hstr, Hint. unfold raise, advance.
  rewrite length_available. reflexivity.
Qed.

Lemma convert_bytes_unsupported_kind_after_reading_witness :
  0 <= 2 /\ "float"%string <> "str"%string /\ "float"%string <> "int"%string
  /\ convert_bytes 2 "float" (Stream [x01; x02; x03] 0)
     = (Raise (ValueError "Type not supported."),
        Stream [x01; x02; x03] (0 + Z.to_nat 2 `min` (3 - 0))).
Proof.
  assert (H1 : 0 <= 2) by lia.
  assert (H2 : "float"%string <> "str"%string) by discriminate.
  assert (H3 : "float"%string <> "int"%string) by discriminate.
  split; [exact H1|]. split; [exact H2|]. split; [exact H3|].
  exact (convert_bytes_unsupported_kind_after_reading 2 "float"
           (Stream [x01; x02; x03] 0) H1 H2 H3).
Defined.

(** X2.  An entry that [parse_manifest_entry] returns took sixteen bytes
    and the bytes of its name from the stream: what is left to read after
    it is what was left before, less the first [16 + file_name_length]
    bytes (less everything, when fewer were left); the bytes of the file
    are untouched. *)
Theorem parse_manifest_entry_consumes_its_record
  (s s' : stream) (e : ManifestEntry) :
  parse_manifest_entry s = (Ok e, s') ->
  data s' = data s
  /\ remaining s'
     = drop (16 + Z.to_nat (file_name_length e)) (remaining s)
  /\ (pos s <= pos s' <= pos s + 16 + Z.to_nat (file_name_length e))%nat.
Proof.
  rewrite parse_manifest_entry_unfold.
  destruct (utf8_decode _) as [name|]; [|discriminate].
  intros [= <- <-]. simpl file_name_length.
  split; [reflexivity|]. split.
  - rewrite !remaining_advance, !drop_drop. f_equal; lia.
  - set (s1 := advance 4 s). set (s2 := advance 4 s1).
    set (s3 := advance 4 s2). set (s4 := advance 4 s3).
    assert (pos s <= pos s1 <= pos s + 4)%nat by apply pos_advance.
    assert (pos s1 <= pos s2 <= pos s1 + 4)%nat by apply pos_advance.
    assert (pos s2 <= pos s3 <= pos s2 + 4)%nat by apply pos_advance.
    assert (pos s3 <= pos s4 <= pos s3 + 4)%nat by apply pos_advance.
    pose proof (pos_advance
                  (Z.to_nat (from_bytes_little (read_padded 4 s3))) s4).
    clearbody s1 s2 s3 s4. lia.
Qed.

Lemma parse_manifest_entry_consumes_its_record_witness :
  parse_manifest_entry (Stream sample_archive 24)
  = (Ok first_entry, Stream sample_archive 45)
  /\ data (Stream sample_archive 45) = data (Stream sample_archive 24)
  /\ remaining (Stream sample_archive 45)
     = drop (16 + Z.to_nat (file_name_length first_entry))
         (remaining (Stream sample_archive 24))
  /\ (pos (Stream sample_archive 24) <= pos (Stream sample_archive 45)
      <= pos (Stream sample_archive 24) + 16
         + Z.to_nat (file_name_length first_entry))%nat.
Proof.
  assert (H1 : parse_manifest_entry (Stream sample_archive 24)
               = (Ok first_entry, Stream sample_archive 45))
    by (vm_compute; reflexivity).
  split; [exact H1|].
  exact (parse_manifest_entry_consumes_its_record _ _ _ H1).
Defined.

(** X3.  Reading depends only on the bytes from the position of the stream
    on: on two streams with the same bytes left to read, [convert_bytes]
    and [parse_manifest_entry] return the same value or raise the same
    exception, and leave the same bytes to read. *)
Theorem parsing_depends_on_remaining_bytes
  (s t : stream) (n_bytes : Z) (type : string) :
  remaining s = remaining t ->
  fst (convert_bytes n_bytes type s) = fst (convert_bytes n_bytes type t)
  /\ remaining (snd (convert_bytes n_bytes type s))
     = remaining (snd (convert_bytes n_bytes type t))
  /\ fst (parse_manifest_entry s) = fst (parse_manifest_entry t)
  /\ remaining (snd (parse_manifest_entry s))
     = remaining (snd (parse_manifest_entry t)).
Proof.
  intros Heq.
  assert (Hconv : fst (convert_bytes n_bytes type s)
                  = fst (convert_bytes n_bytes type t)
                  /\ remaining (snd (convert_bytes n_bytes type s))
                     = remaining (snd (convert_bytes n_bytes type t))).
  { unfold convert_bytes, bind, lift_result, bytearray.
    destruct (n_bytes <? 0); [split; [reflexivity | exact Heq]|].
    rewrite !readinto_zeros.
    rewrite (read_padded_ext _ s t Heq).
    pose proof (remaining_advance_ext (Z.to_nat n_bytes) s t Heq) as Hadv.
    destruct (String.eqb type "str").
    - destruct (utf8_decode _); split; [reflexivity | exact Hadv
                                       | reflexivity | exact Hadv].
    - destruct (String.eqb type "int"); split;
        [reflexivity | exact Hadv | reflexivity | exact Hadv]. }
  destruct Hconv as [Hv Hr]. split; [exact Hv|]. split; [exact Hr|].
  rewrite !parse_manifest_entry_unfold.
  pose proof (remaining_advance_ext 4 _ _ Heq) as H1.
  pose proof (remaining_advance_ext 4 _ _ H1) as H2.
  pose proof (remaining_advance_ext 4 _ _ H2) as H3.
  pose proof (remaining_advance_ext 4 _ _ H3) as H4.
  rewrite (read_padded_ext 4 s t Heq), (read_padded_ext 4 _ _ H1),
    (read_padded_ext 4 _ _ H2), (read_padded_ext 4 _ _ H3).
  rewrite (read_padded_ext _ _ _ H4).
  simpl fst; simpl snd.
  split; [reflexivity|]. apply remaining_advance_ext, H4.
Qed.

Lemma parsing_depends_on_remaining_bytes_witness :
  remaining (Stream sample_archive 24)
  = remaining (Stream (drop 20 sample_archive) 4)
  /\ fst (convert_bytes 4 "int" (Stream sample_archive 24))
     = fst (convert_bytes 4 "int" (Stream (drop 20 sample_archive) 4))
  /\ remaining (snd (convert_bytes 4 "int" (Stream sample_archive 24)))
     = remaining (snd (convert_bytes 4 "int" (Stream (drop 20 sample_archive) 4)))
  /\ fst (parse_manifest_entry (Stream sample_archive 24))
     = fst (parse_manifest_entry (Stream (drop 20 sample_archive) 4))
  /\ remaining (snd (parse_manifest_entry (Stream sample_archive 24)))
     = remaining (snd (parse_manifest_entry (Stream (drop 20 sample_archive) 4))).
Proof.
  assert (H1 : remaining (Stream sample_archive 24)
               = remaining (Stream (drop 20 sample_archive) 4))
    by reflexivity.
  split; [exact H1|].
  exact (parsing_depends_on_remaining_bytes _ _ 4 "int" H1).
Defined.

(** ** Round trips through the format *)

Lemma length_encode_entry (e : ManifestEntry) :
  List.length (encode_entry e) = (16 + List.length (file_name e))%nat.
Proof.
  unfold encode_entry. rewrite !length_app, !length_le32, length_name_bytes.
  reflexivity.
Qed.

Lemma parse_manifest_entry_encoded (s : stream) (e : ManifestEntry)
  (rest : list byte) :
  storable e -> remaining s = encode_entry e ++ rest ->
  parse_manifest_entry s
  = (Ok e, Stream (data s) (pos s + List.length (encode_entry e)))
  /\ remaining (Stream (data s) (pos s + List.length (encode_entry e))) = rest.
Proof.
  intros (Hl & Hl' & Ho & Hnl & Hnlr & Hname) Hrem.
  destruct e as [a b c nl name].
  unfold encode_entry in Hrem.
  cbn [length _length file_offset file_name_length file_name] in *.
  rewrite <- !app_assoc in Hrem.
  destruct (read_exact 4 s _ _ Hrem (length_le32 a)) as (R0 & A0 & M0).
  destruct (read_exact 4 _ _ _ M0 (length_le32 b)) as (R1 & A1 & M1).
  destruct (read_exact 4 _ _ _ M1 (length_le32 c)) as (R2 & A2 & M2).
  destruct (read_exact 4 _ _ _ M2 (length_le32 nl)) as (R3 & A3 & M3).
  assert (Hto : Z.to_nat nl = List.length (name_bytes name))
    by (rewrite length_name_bytes; lia).
  destruct (read_exact (Z.to_nat nl) _ _ _ M3 (eq_sym Hto)) as (R4 & A4 & M4).
  assert (Hascii : Forall (fun x => (x < 128)%N) name)
    by (eapply Forall_impl; [exact Hname | intros x [Hx _]; exact Hx]).
  assert (Hclean : Forall (fun x => x <> backslash) name)
    by (eapply Forall_impl; [exact Hname | intros x [_ Hx]; exact Hx]).
  rewrite parse_manifest_entry_unfold.
  rewrite R0, R1, R2, R3, !from_bytes_little_le32 by assumption.
  rewrite R4, (utf8_decode_ascii name Hascii), (str_replace_absent _ _ _ Hclean).
  assert (Hend : advance (Z.to_nat nl) (advance 4 (advance 4 (advance 4 (advance 4 s))))
                 = Stream (data s)
                     (pos s + List.length (encode_entry (mkManifestEntry a b c nl name)))).
  { rewrite A4, A3, A2, A1, A0. simpl data; simpl pos.
    rewrite length_encode_entry. simpl file_name. f_equal. lia. }
  rewrite <- Hend. split; [reflexivity | exact M4].
Qed.

(** X5.  Decoding inverts the layout of an entry: when a stream holds, at
    its position, the record of a storable entry (four little-endian
    32-bit fields, then the name, one byte per character), whatever comes
    before and after, [parse_manifest_entry] returns that very entry and
    leaves the stream just after the record. *)
Theorem parse_manifest_entry_inverts_encoding
  (e : ManifestEntry) (before after : list byte) :
  storable e ->
  parse_manifest_entry
    (Stream (before ++ encode_entry e ++ after) (List.length before))
  = (Ok e,
     Stream (before ++ encode_entry e ++ after)
       (List.length before + (16 + List.length (file_name e)))).
Proof.
  intros He.
  destruct (parse_manifest_entry_encoded
              (Stream (before ++ encode_entry e ++ after) (List.length before))
              e after He) as [Hp _].
  - unfold remaining. simpl. apply drop_app_length.
  - rewrite Hp. simpl data; simpl pos. rewrite length_encode_entry. reflexivity.
Qed.

Lemma parse_manifest_entry_inverts_encoding_witness :
  storable first_entry
  /\ parse_manifest_entry
       (Stream ([x01; x02] ++ encode_entry first_entry ++ [x03])
          (List.length [x01; x02]))
     = (Ok first_entry,
        Stream ([x01; x02] ++ encode_entry first_entry ++ [x03])
          (List.length [x01; x02] + (16 + List.length (file_name first_entry)))).
Proof.
  assert (H1 : storable first_entry).
  { unfold storable, u32. simpl. change (2 ^ 32) with 4294967296.
    repeat split; try lia.
    repeat constructor; try (vm_compute; reflexivity); discriminate. }
  split; [exact H1|].
  exact (parse_manifest_entry_inverts_encoding first_entry [x01; x02] [x03] H1).
Defined.

Lemma entries_from_encoded (es : list ManifestEntry) (d rest : list byte)
  (p : nat) :
  Forall storable es ->
  remaining (Stream d p) = concat (map encode_entry es) ++ rest ->
  entries_from (Stream d p) es
    (Stream d (p + List.length (concat (map encode_entry es)))).
Proof.
  intros Hall. revert p.
  induction Hall as [|e es He _ IH]; intros p Hrem; cbn [map concat].
  - simpl. rewrite Nat.add_0_r. constructor.
  - cbn [map concat] in Hrem. rewrite <- app_assoc in Hrem.
    destruct (parse_manifest_entry_encoded (Stream d p) e _ He Hrem)
      as [Hp Hrest].
    simpl data in *; simpl pos in *.
    econstructor; [exact Hp|].
    rewrite length_app, Nat.add_assoc. apply IH. exact Hrest.
Qed.

(** X6.  Decoding inverts the layout of an archive: for a signature of
    eight bytes that decode, any version, any payload between the header
    and the table, and any list of storable entries, [create_manifest] on
    the archive laid out as the format says returns exactly these entries,
    in order, with [number_of_files] their number.  The version and the
    payload play no part. *)
Theorem create_manifest_inverts_encoding {FS : Type} `{FileSystem FS}
  (far_file_path : pystr) (o : os_state FS)
  (signature : list byte) (version : Z) (payload : list byte)
  (es : list ManifestEntry) :
  open_rb far_file_path (fs o)
  = Ok (encode_archive signature version payload es) ->
  List.length signature = 8%nat -> utf8_decode signature <> None ->
  u32 (16 + Z.of_nat (List.length payload)) ->
  u32 (Z.of_nat (List.length es)) ->
  Forall storable es ->
  create_manifest far_file_path o
  = (Ok (mkManifest (Z.of_nat (List.length es)) es), o).
Proof.
  intros Hopen Hsig Hdec Hoff Hcount Hall.
  rewrite (create_manifest_with_open _ _ _ Hopen). f_equal.
  set (d := encode_archive signature version payload es).
  set (off := (16 + List.length payload)%nat).
  assert (Hhead : read_padded 8 (Stream d 0) = signature).
  { apply (read_exact 8 (Stream d 0) signature
             (le32 version ++ le32 (16 + Z.of_nat (List.length payload))
              ++ payload ++ encode_table es)); [reflexivity | exact Hsig]. }
  assert (Hd12 : drop 12 d
                 = le32 (16 + Z.of_nat (List.length payload))
                   ++ payload ++ encode_table es).
  { unfold d, encode_archive.
    rewrite (app_assoc signature). apply drop_app_length'.
    rewrite length_app, length_le32, Hsig. reflexivity. }
  assert (Hdoff : drop off d = encode_table es).
  { unfold d, encode_archive.
    rewrite (app_assoc signature), (app_assoc (signature ++ _)),
      (app_assoc ((signature ++ _) ++ _)).
    apply drop_app_length'.
    rewrite !length_app, !length_le32, Hsig. unfold off. lia. }
  rewrite create_manifest_stream_unfold. fold d.
  rewrite Hhead. destruct (utf8_decode signature) as [sig|]; [|congruence].
  rewrite Hd12.
  rewrite (take_app_length' (le32 _) _ 4) by reflexivity.
  rewrite from_bytes_little_le32 by assumption.
  replace (Z.to_nat (16 + Z.of_nat (List.length payload))) with off
    by (unfold off; lia).
  assert (Htable : remaining (Stream d off)
                   = le32 (Z.of_nat (List.length es))
                     ++ concat (map encode_entry es))
    by (unfold remaining; simpl; exact Hdoff).
  rewrite !Htable.
  rewrite (take_app_length' (le32 _) _ 4) by reflexivity.
  rewrite from_bytes_little_le32 by assumption. rewrite Nat2Z.id.
  destruct (read_exact 4 (Stream d off) _ _ Htable (length_le32 _))
    as (_ & Hadv & Hrest).
  rewrite Hadv. simpl data; simpl pos.
  rewrite Hadv in Hrest. simpl data in Hrest; simpl pos in Hrest.
  rewrite <- (app_nil_r (concat _)) in Hrest.
  pose proof (entries_from_encoded es d [] (off + 4) Hall Hrest) as Hfrom.
  assert (Hp : parse_entries (List.length es) [] (Stream d (off + 4))
               = (Ok es, Stream d (off + 4
                                   + List.length (concat (map encode_entry es))))).
  { apply parse_entries_spec. exists es. repeat split. exact Hfrom. }
  rewrite Hp. reflexivity.
Qed.

Lemma storable_sample_entries : Forall storable (manifest_entries sample_manifest).
Proof.
  unfold storable, u32. change (2 ^ 32) with 4294967296. simpl.
  repeat constructor; try lia; try discriminate; vm_compute; reflexivity.
Qed.

Lemma create_manifest_inverts_encoding_witness :
  open_rb (py "x.far") (fs (os_with_archive encoded_sample))
  = Ok (encode_archive (ascii_bytes "SIMSFAR ") 1 (ascii_bytes "DATA")
          (manifest_entries sample_manifest))
  /\ List.length (ascii_bytes "SIMSFAR ") = 8%nat
  /\ utf8_decode (ascii_bytes "SIMSFAR ") <> None
  /\ u32 (16 + Z.of_nat (List.length (ascii_bytes "DATA")))
  /\ u32 (Z.of_nat (List.length (manifest_entries sample_manifest)))
  /\ Forall storable (manifest_entries sample_manifest)
  /\ create_manifest (py "x.far") (os_with_archive encoded_sample)
     = (Ok (mkManifest
              (Z.of_nat (List.length (manifest_entries sample_manifest)))
              (manifest_entries sample_manifest)),
        os_with_archive encoded_sample).
Proof.
  assert (H1 : open_rb (py "x.far") (fs (os_with_archive encoded_sample))
               = Ok (encode_archive (ascii_bytes "SIMSFAR ") 1
                       (ascii_bytes "DATA") (manifest_entries sample_manifest)))
    by reflexivity.
  assert (H2 : List.length (ascii_bytes "SIMSFAR ") = 8%nat) by reflexivity.
  assert (H3 : utf8_decode (ascii_bytes "SIMSFAR ") <> None) by discriminate.
  assert (H4 : u32 (16 + Z.of_nat (List.length (ascii_bytes "DATA"))))
    by (unfold u32; simpl; change (2 ^ 32) with 4294967296; lia).
  assert (H5 : u32 (Z.of_nat (List.length (manifest_entries sample_manifest))))
    by (unfold u32; simpl; change (2 ^ 32) with 4294967296; lia).
  split; [exact H1|]. split; [exact H2|]. split; [exact H3|].
  split; [exact H4|]. split; [exact H5|].
  split; [exact storable_sample_entries|].
  exact (create_manifest_inverts_encoding (py "x.far")
           (os_with_archive encoded_sample) _ 1 _ _
           H1 H2 H3 H4 H5 storable_sample_entries).
Defined.

(** ** What every parsed manifest satisfies *)

Lemma convert_int_u32 (s : stream) : u32 (from_bytes_little (read_padded 4 s)).
Proof.
  unfold u32. split; [apply from_bytes_little_nonneg|].
  pose proof (from_bytes_little_bound (read_padded 4 s)) as Hb.
  rewrite length_read_padded in Hb. exact Hb.
Qed.

Lemma utf8_decode_length_le (n : nat) (bs : list byte) (str : pystr) :
  (List.length bs <= n)%nat -> utf8_decode bs = Some str ->
  (List.length str <= List.length bs)%nat.
Proof.
  revert bs str. induction n as [|n IH]; intros bs str Hn.
  - destruct bs; [|simpl in Hn; lia]. intros [= <-]. simpl. lia.
  - destruct bs as [|b0 r0]; [intros [= <-]; simpl; lia|].
    simpl in Hn. simpl utf8_decode.
    repeat match goal with
           | |- context [if ?c then _ else _] => destruct c
           | |- None = Some _ -> _ => discriminate
           | |- context [match ?l with [] => _ | _ :: _ => _ end] =>
             is_var l; destruct l
           end;
      try discriminate;
      match goal with
      | |- context [utf8_decode ?r] =>
        destruct (utf8_decode r) as [t|] eqn:Hr; [|discriminate];
        apply IH in Hr; [|simpl in *; lia];
        intros [= <-]; simpl in *; lia
      end.
Qed.

Lemma entries_from_all (P : ManifestEntry -> Prop) :
  (forall s e s', parse_manifest_entry s = (Ok e, s') -> P e) ->
  forall s es s', entries_from s es s' -> Forall P es.
Proof.
  intros HP s es s' Hfrom.
  induction Hfrom as [s|s e s1 es s2 Hp _ IH]; constructor.
  - eapply HP, Hp.
  - exact IH.
Qed.

Section ManifestProperties.
Context {FS : Type} `{FileSystem FS}.

Lemma create_manifest_ok_inv (far_file_path : pystr) (o o' : os_state FS)
  (m : Manifest) :
  create_manifest far_file_path o = (Ok m, o') ->
  exists d table s',
    open_rb far_file_path (fs o) = Ok d
    /\ number_of_files m = from_bytes_little (read_padded 4 table)
    /\ entries_from (advance 4 table) (manifest_entries m) s'.
Proof.
  destruct (open_rb far_file_path (fs o)) as [d|e] eqn:Hopen.
  - rewrite (create_manifest_with_open _ _ _ Hopen).
    rewrite create_manifest_stream_unfold.
    destruct (utf8_decode _); [|discriminate].
    rewrite <- from_bytes_little_read_padded.
    set (table := Stream d _).
    destruct (parse_entries _ [] (advance 4 table)) as [[es|e] s1] eqn:Hp;
      [|discriminate].
    intros [= <- _]. simpl.
    apply parse_entries_spec in Hp as (es' & -> & _ & Hfrom).
    exists d, table, s1. repeat split. exact Hfrom.
  - unfold create_manifest, with_open_rb. rewrite Hopen. discriminate.
Qed.

(** X4.  In every manifest that [create_manifest] returns, the count and
    the four integer fields of every entry are unsigned 32-bit values, and
    no name has more characters than its [file_name_length] says it has
    bytes. *)
Theorem parsed_manifest_fields_in_range
  (far_file_path : pystr) (o o' : os_state FS) (m : Manifest) :
  create_manifest far_file_path o = (Ok m, o') ->
  u32 (number_of_files m)
  /\ Forall (fun e =>
               u32 (length e) /\ u32 (_length e) /\ u32 (file_offset e)
               /\ u32 (file_name_length e)
               /\ (List.length (file_name e)
                   <= Z.to_nat (file_name_length e))%nat)
       (manifest_entries m).
Proof.
  intros Hrun.
  apply create_manifest_ok_inv in Hrun as (d & table & s' & _ & Hn & Hfrom).
  split; [rewrite Hn; apply convert_int_u32|].
  eapply entries_from_all; [|exact Hfrom].
  clear. intros s e s'. rewrite parse_manifest_entry_unfold.
  destruct (utf8_decode _) as [name|] eqn:Hdec; [|discriminate].
  intros [= <- _]. simpl.
  repeat split; try apply convert_int_u32.
  unfold str_replace. rewrite length_map.
  apply (utf8_decode_length_le _ _ _ (Nat.le_refl _)) in Hdec.
  rewrite length_read_padded in Hdec. exact Hdec.
Qed.

(** X7.  [create_manifest] only reads: whatever happens, it leaves the
    file system and the standard output as they were.  And it fails in two
    ways only: the archive cannot be opened, or some bytes that should be
    text (the signature, a name) are not valid UTF-8. *)
Theorem create_manifest_only_reads
  (far_file_path : pystr) (o : os_state FS) :
  snd (create_manifest far_file_path o) = o
  /\ forall e,
       fst (create_manifest far_file_path o) = Raise e ->
       open_rb far_file_path (fs o) = Raise e \/ e = UnicodeDecodeError.
Proof.
  destruct (open_rb far_file_path (fs o)) as [d|x] eqn:Hopen.
  - rewrite (create_manifest_with_open _ _ _ Hopen). simpl.
    split; [reflexivity|]. intros e. rewrite create_manifest_stream_unfold.
    destruct (utf8_decode _); [|intros [= <-]; right; reflexivity].
    destruct (parse_entries _ _ _) as [[es|e'] s1] eqn:Hp; [discriminate|].
    intros [= <-]. right.
    eapply parse_entries_raises_only_decode_errors, Hp.
  - unfold create_manifest, with_open_rb. rewrite Hopen. simpl.
    split; [reflexivity|]. intros e [= <-]. left. reflexivity.
Qed.

End ManifestProperties.

Lemma parsed_manifest_fields_in_range_witness :
  create_manifest (py "x.far") (os_with_archive sample_archive)
  = (Ok sample_manifest, os_with_archive sample_archive)
  /\ u32 (number_of_files sample_manifest)
  /\ Forall (fun e =>
               u32 (length e) /\ u32 (_length e) /\ u32 (file_offset e)
               /\ u32 (file_name_length e)
               /\ (List.length (file_name e)
                   <= Z.to_nat (file_name_length e))%nat)
       (manifest_entries sample_manifest).
Proof.
  assert (H1 : create_manifest (py "x.far") (os_with_archive sample_archive)
               = (Ok sample_manifest, os_with_archive sample_archive))
    by (vm_compute; reflexivity).
  split; [exact H1|].
  exact (parsed_manifest_fields_in_range _ _ _ _ H1).
Defined.

(** ** Looking names up *)

Lemma find_by_name_absent (l : list ManifestEntry) (name : pystr) :
  Forall (fun e => file_name e <> name) l ->
  find_by_name l name = Raise (ValueError "File name not found in Manifest.").
Proof.
  induction 1 as [|e l He _ IH]; simpl; [reflexivity|].
  rewrite bool_decide_eq_false_2 by assumption. exact IH.
Qed.

(** X8.  Names are normalised when they are parsed, the name looked up is
    not: in a manifest that [create_manifest] returned, looking up a name
    that holds a backslash always raises [ValueError], whatever the archive
    stores. *)
Theorem lookup_with_backslash_never_matches {FS : Type} `{FileSystem FS}
  (far_file_path : pystr) (o o' : os_state FS) (m : Manifest) (name : pystr) :
  create_manifest far_file_path o = (Ok m, o') ->
  In backslash name ->
  get_manifest_entry_by_name m name
  = Raise (ValueError "File name not found in Manifest.").
Proof.
  intros Hrun Hin.
  apply create_manifest_ok_inv in Hrun as (d & table & s' & _ & _ & Hfrom).
  apply find_by_name_absent.
  eapply Forall_impl.
  - eapply (entries_from_all
              (fun e => Forall (fun c => c <> backslash) (file_name e)));
      [|exact Hfrom].
    intros s e s1. rewrite parse_manifest_entry_unfold.
    destruct (utf8_decode _); [|discriminate].
    intros [= <- _]. simpl. apply str_replace_no_old. discriminate.
  - intros e Hclean Heq. simpl in Hclean. rewrite Heq in Hclean.
    rewrite Forall_forall in Hclean.
    apply list_elem_of_In in Hin. exact (Hclean _ Hin eq_refl).
Qed.

Lemma lookup_with_backslash_never_matches_witness :
  create_manifest (py "x.far") (os_with_archive sample_archive)
  = (Ok sample_manifest, os_with_archive sample_archive)
  /\ In backslash (py "dir\b.txt")
  /\ get_manifest_entry_by_name sample_manifest (py "dir\b.txt")
     = Raise (ValueError "File name not found in Manifest.").
Proof.
  assert (H1 : create_manifest (py "x.far") (os_with_archive sample_archive)
               = (Ok sample_manifest, os_with_archive sample_archive))
    by (vm_compute; reflexivity).
  assert (H2 : In backslash (py "dir\b.txt"))
    by (simpl; right; right; right; left; reflexivity).
  split; [exact H1|]. split; [exact H2|].
  exact (lookup_with_backslash_never_matches _ _ _ _ _ H1 H2).
Defined.

(** X9.  The name of any entry of a manifest is found: looking it up
    returns an entry with that name, never an error; and when no two
    entries of the manifest share a name, it returns that very entry. *)
Theorem lookup_of_own_name (manifest : Manifest) (entry : ManifestEntry) :
  In entry (manifest_entries manifest) ->
  exists found,
    get_manifest_entry_by_name manifest (file_name entry) = Ok found
    /\ file_name found = file_name entry
    /\ (NoDup (map file_name (manifest_entries manifest)) -> found = entry).
Proof.
  unfold get_manifest_entry_by_name.
  induction (manifest_entries manifest) as [|e l IH]; intros Hin;
    [destruct Hin|].
  simpl find_by_name.
  destruct (bool_decide_reflect (file_name e = file_name entry)) as [Heq|Hne].
  - exists e. split; [reflexivity|]. split; [exact Heq|].
    intros Hnd. destruct Hin as [->|Hin]; [reflexivity|].
    simpl in Hnd. apply NoDup_cons in Hnd as [Hnotin _].
    exfalso. apply Hnotin. rewrite Heq.
    apply list_elem_of_In, in_map, Hin.
  - destruct Hin as [->|Hin]; [contradiction|].
    destruct (IH Hin) as (found & Hf & Hn & Huniq).
    exists found. split; [exact Hf|]. split; [exact Hn|].
    intros Hnd. simpl in Hnd. apply NoDup_cons in Hnd as [_ Hnd].
    exact (Huniq Hnd).
Qed.

Lemma lookup_of_own_name_witness :
  In (mkManifestEntry 3 3 5 9 (py "dir/b.txt")) (manifest_entries sample_manifest)
  /\ exists found,
       get_manifest_entry_by_name sample_manifest
         (file_name (mkManifestEntry 3 3 5 9 (py "dir/b.txt"))) = Ok found
       /\ file_name found = file_name (mkManifestEntry 3 3 5 9 (py "dir/b.txt"))
       /\ (NoDup (map file_name (manifest_entries sample_manifest)) ->
           found = mkManifestEntry 3 3 5 9 (py "dir/b.txt")).
Proof.
  assert (H1 : In (mkManifestEntry 3 3 5 9 (py "dir/b.txt"))
                 (manifest_entries sample_manifest))
    by (simpl; right; left; reflexivity).
  split; [exact H1|].
  exact (lookup_of_own_name sample_manifest _ H1).
Defined.

(** ** Extraction, further *)

Section ExtractionFurther.
Context {FS : Type} `{FileSystem FS}.

(** What [extract_manifest_entry] does to the standard output, in every
    case: nothing, or the two lines of one report, and then it returned
    normally after a write of the destination that raised an [OSError]
    with the text reported. *)
Lemma extract_manifest_entry_stdout
  (entry : ManifestEntry) (output_path : pystr) (w : world FS) :
  let run := extract_manifest_entry entry output_path w in
  stdout (snd (snd run)) = stdout (snd w)
  \/ exists error buf f1 f2,
       write_file (path_join output_path (file_name entry)) buf f1
       = (Raise (OSError error), f2)
       /\ fst run = Ok tt
       /\ stdout (snd (snd run))
          = stdout (snd w)
            ++ failure_report (path_join output_path (file_name entry)) error.
Proof.
  destruct w as [s o].
  destruct (get_bytes (file_offset entry) (length entry) s)
    as [[buf|e] s1] eqn:Hget.
  - rewrite (extract_manifest_entry_unfold _ _ _ _ _ _ Hget).
    destruct (makedirs _ (fs o)) as [[[]|e] f1]; [|left; reflexivity].
    destruct (write_file _ buf f1) as [[[]|e] f2] eqn:Hw; [left; reflexivity|].
    destruct e; try (left; reflexivity).
    right. exists msg, buf, f1, f2. split; [exact Hw|]. split; reflexivity.
  - unfold extract_manifest_entry, bind, on_stream. simpl fst; simpl snd.
    rewrite Hget. left. reflexivity.
Qed.

(** X10.  An extraction does not depend on where the stream stands: for an
    entry with a non-negative offset and length, [extract_manifest_entry]
    gives the same result, the same file system, the same output and the
    same final stream from any two positions of the same stream. *)
Theorem extraction_ignores_stream_position
  (entry : ManifestEntry) (output_path : pystr) (d : list byte) (p q : nat)
  (o : os_state FS) :
  0 <= file_offset entry -> 0 <= length entry ->
  extract_manifest_entry entry output_path (Stream d p, o)
  = extract_manifest_entry entry output_path (Stream d q, o).
Proof.
  intros Hoff Hlen.
  rewrite (extract_manifest_entry_unfold _ _ _ _ _ _
             (get_bytes_unfold _ _ (Stream d p) Hoff Hlen)).
  rewrite (extract_manifest_entry_unfold _ _ _ _ _ _
             (get_bytes_unfold _ _ (Stream d q) Hoff Hlen)).
  reflexivity.
Qed.

(** X11.  What [extract_manifest_files] does to the standard output.  When
    the archive cannot be opened it raises the error of opening it and
    leaves the output and the file system as they were.  In every case it
    only adds to the output, and what it adds is, for some of the entries
    of the manifest taken in the order of the manifest, the two-line report
    of that entry's destination, with the text of an [OSError] that writing
    this destination raised: two lines for each reported entry, and no
    more reports than entries. *)
Theorem extract_manifest_files_output_grows
  (manifest : Manifest) (output_path far_file_path : pystr) (o : os_state FS) :
  (forall e,
      open_rb far_file_path (fs o) = Raise e ->
      extract_manifest_files manifest output_path far_file_path o = (Raise e, o))
  /\ exists failed : list (ManifestEntry * pystr),
       stdout (snd (extract_manifest_files manifest output_path far_file_path o))
       = stdout o ++ reports output_path failed
       /\ map fst failed `sublist_of` manifest_entries manifest
       /\ Forall (fun p =>
                    exists buf f1 f2,
                      write_file (path_join output_path (file_name (fst p)))
                        buf f1
                      = (Raise (OSError (snd p)), f2))
            failed
       /\ List.length (reports output_path failed)
          = (2 * List.length failed)%nat
       /\ (List.length failed <= List.length (manifest_entries manifest))%nat.
Proof.
  assert (Hcount : forall failed : list (ManifestEntry * pystr),
             List.length (reports output_path failed)
             = (2 * List.length failed)%nat).
  { induction failed as [|p failed IH]; [reflexivity|].
    unfold reports in *. simpl. rewrite IH. lia. }
  assert (Hloop : forall l (w : world FS),
             exists failed : list (ManifestEntry * pystr),
               stdout (snd (snd (for_each l
                                   (fun entry =>
                                      extract_manifest_entry entry output_path) w)))
               = stdout (snd w) ++ reports output_path failed
               /\ map fst failed `sublist_of` l
               /\ Forall (fun p =>
                            exists buf f1 f2,
                              write_file
                                (path_join output_path (file_name (fst p)))
                                buf f1
                              = (Raise (OSError (snd p)), f2))
                    failed).
  { induction l as [|entry l IH]; intros w.
    - exists []. simpl. rewrite app_nil_r.
      split; [reflexivity|]. split; [constructor | constructor].
    - simpl for_each. unfold bind.
      pose proof (extract_manifest_entry_stdout entry output_path w) as Hone.
      destruct (extract_manifest_entry entry output_path w) as [[[]|e] w1];
        simpl in Hone.
      + destruct (IH w1) as (failed & Hout & Hsub & Hall).
        destruct Hone as [Hsame | (error & buf & f1 & f2 & Hw & _ & Hrep)].
        * exists failed. rewrite Hout, Hsame.
          split; [reflexivity|]. split; [|exact Hall].
          apply sublist_cons, Hsub.
        * exists ((entry, error) :: failed).
          rewrite Hout, Hrep, <- app_assoc.
          split; [reflexivity|]. split.
          -- simpl. apply sublist_skip, Hsub.
          -- constructor; [|exact Hall]. exists buf, f1, f2. exact Hw.
      + destruct Hone as [Hsame | (error & buf & f1 & f2 & _ & Hok & _)];
          [|discriminate Hok].
        exists []. simpl. rewrite Hsame, app_nil_r.
        split; [reflexivity|]. split; [apply sublist_nil_l | constructor]. }
  unfold extract_manifest_files, with_open_rb.
  destruct (open_rb far_file_path (fs o)) as [d|x].
  - split; [discriminate|].
    destruct (Hloop (manifest_entries manifest) (Stream d 0, o))
      as (failed & Hout & Hsub & Hall).
    exists failed.
    destruct (for_each (manifest_entries manifest)
                (fun entry => extract_manifest_entry entry output_path)
                (Stream d 0, o)) as [r w'].
    simpl in *. split; [exact Hout|]. split; [exact Hsub|].
    split; [exact Hall|]. split; [apply Hcount|].
    apply sublist_length in Hsub. rewrite length_map in Hsub. exact Hsub.
  - split; [intros e [= <-]; reflexivity|].
    exists []. simpl. rewrite app_nil_r.
    split; [reflexivity|]. split; [apply sublist_nil_l|].
    split; [constructor|]. split; [reflexivity | lia].
Qed.

End ExtractionFurther.

Lemma extraction_ignores_stream_position_witness :
  0 <= file_offset first_entry /\ 0 <= length first_entry
  /\ extract_manifest_entry first_entry (py "out")
       (Stream sample_archive 0, os_with_archive sample_archive)
     = extract_manifest_entry first_entry (py "out")
         (Stream sample_archive 60, os_with_archive sample_archive).
Proof.
  assert (H1 : 0 <= file_offset first_entry) by (simpl; lia).
  assert (H2 : 0 <= length first_entry) by (simpl; lia).
  split; [exact H1|]. split; [exact H2|].
  exact (extraction_ignores_stream_position first_entry (py "out")
           sample_archive 0 60 (os_with_archive sample_archive) H1 H2).
Defined.

(** ** Extraction into the working directory *)

Lemma after_last_sep_flat (name : pystr) :
  Forall (fun c => c <> slash) name -> after_last_sep name = 0%nat.
Proof.
  induction 1 as [|c name Hc _ IH]; simpl; [reflexivity|].
  rewrite IH. destruct (N.eqb_spec c slash); [contradiction | reflexivity].
Qed.

(** X12.  With an empty output path, an entry whose name has no slash is
    never written: its directory name is the empty string, which
    [os.makedirs] refuses, and the [OSError] leaves
    [extract_manifest_entry] before the [try] block, with nothing reported
    and the file system as it was. *)
Theorem flat_name_with_empty_output_path_raises
  (entry : ManifestEntry) (s : stream) (f : posix_fs) (printed : list pystr) :
  0 <= file_offset entry -> 0 <= length entry ->
  Forall (fun c => c <> slash) (file_name entry) ->
  exists s',
    extract_manifest_entry entry [] (s, OsState f printed)
    = (Raise (os_error "[Errno 2] No such file or directory" []),
       (s', OsState f printed)).
Proof.
  intros Hoff Hlen Hflat.
  rewrite (extract_manifest_entry_unfold _ _ _ _ _ _
             (get_bytes_unfold _ _ s Hoff Hlen)).
  assert (Hjoin : path_join [] (file_name entry) = file_name entry).
  { unfold path_join. destruct (file_name entry) as [|c r]; [reflexivity|].
    simpl. apply Forall_cons in Hflat as [Hc _].
    destruct (N.eqb_spec c slash); [contradiction | reflexivity]. }
  assert (Hdir : dirname (file_name entry) = []).
  { unfold dirname. rewrite (after_last_sep_flat _ Hflat). reflexivity. }
  rewrite Hjoin, Hdir. simpl. eexists. reflexivity.
Qed.

Lemma flat_name_with_empty_output_path_raises_witness :
  0 <= file_offset first_entry /\ 0 <= length first_entry
  /\ Forall (fun c => c <> slash) (file_name first_entry)
  /\ exists s',
       extract_manifest_entry first_entry []
         (Stream sample_archive 0, OsState (fs_with_archive sample_archive) [])
       = (Raise (os_error "[Errno 2] No such file or directory" []),
          (s', OsState (fs_with_archive sample_archive) [])).
Proof.
  assert (H1 : 0 <= file_offset first_entry) by (simpl; lia).
  assert (H2 : 0 <= length first_entry) by (simpl; lia).
  assert (H3 : Forall (fun c => c <> slash) (file_name first_entry))
    by (repeat constructor; discriminate).
  split; [exact H1|]. split; [exact H2|]. split; [exact H3|].
  exact (flat_name_with_empty_output_path_raises first_entry
           (Stream sample_archive 0) (fs_with_archive sample_archive) []
           H1 H2 H3).
Defined.
